(** * provider-coder: the Workspace controller

    A shallow embedding of the Crossplane provider for Coder workspaces:
    the API types of [apis/coder/v1alpha1] (Workspace, Token) and the
    controller of package [workspace] (connector.Connect and the external
    client's Observe, Create, Update and Delete).

    The controller's effects are calls into libraries that live outside the
    repository: resty (HTTP), os/exec (the coder CLI), fmt (standard output),
    encoding/json, and the Kubernetes client of crossplane-runtime.  HTTP,
    the CLI and the cluster are oracles supplied by an [Environment] or a
    [connector]; standard output and the list of issued calls are recorded
    in a [World] that the operations thread through a state monad. *)

From Stdlib Require Import String Ascii List NArith ZArith Bool Arith Lia.
Import ListNotations.

Local Open Scope list_scope.
Local Open Scope string_scope.
Local Open Scope nat_scope.

Set Implicit Arguments.
Set Warnings "-register-all".

(* ================================================================= *)
(** ** Go errors *)

(** The error values the controller builds or receives.  [errors_Wrap] is
    github.com/pkg/errors.Wrap, [fmt_Errorf_w] is fmt.Errorf with a format
    ending in [%w] applied to an error, [fmt_Errorf] is fmt.Errorf whose
    result wraps nothing.  The two [json_] constructors stand for the two
    kinds of error of encoding/json.Unmarshal, whose messages are shortened
    here; errors raised by the oracles are [errors_New] values. *)
Inductive error : Type :=
| errors_New (msg : string)
| errors_Wrap (cause : error) (msg : string)
| fmt_Errorf_w (prefix : string) (cause : error)
| fmt_Errorf (msg : string)
| json_SyntaxError
| json_UnmarshalTypeError.

(** The [Error()] method. *)
Fixpoint Error (e : error) : string :=
  match e with
  | errors_New msg => msg
  | errors_Wrap cause msg => msg ++ ": " ++ Error cause
  | fmt_Errorf_w prefix cause => prefix ++ Error cause
  | fmt_Errorf msg => msg
  | json_SyntaxError => "json: syntax error"
  | json_UnmarshalTypeError => "json: cannot unmarshal value into Go value"
  end.

(** A Go result pair [(T, error)] coming back from a library call, where the
    caller looks at the value only when the error is nil. *)
Inductive res (A : Type) : Type :=
| Ok (a : A)
| Err (e : error).
Arguments Err {A} e.

(** A Go call either returns or panics. *)
Inductive go_result (A : Type) : Type :=
| Returns (a : A)
| Panics (msg : string).
Arguments Panics {A} msg.

(* ================================================================= *)
(** ** strings *)

(** [strings.ReplaceAll s old new] for a one-character [old]. *)
Fixpoint ReplaceAll (s : string) (old : ascii) (new : string) : string :=
  match s with
  | EmptyString => EmptyString
  | String c r =>
      if Ascii.eqb c old then new ++ ReplaceAll r old new
      else String c (ReplaceAll r old new)
  end.

Definition dot : ascii := "."%char.
Definition dquote : ascii := Eval cbv in ascii_of_N 34.
Definition backslash : ascii := Eval cbv in ascii_of_N 92.

(** Texts that hold double quotes are written with apostrophes in their
    place: [js] turns every apostrophe into a double quote. *)
Definition js (s : string) : string :=
  ReplaceAll s "'"%char (String dquote EmptyString).

(** Does [c] occur in [s]? *)
Fixpoint contains (c : ascii) (s : string) : bool :=
  match s with
  | EmptyString => false
  | String d r => Ascii.eqb d c || contains c r
  end.

(* ================================================================= *)
(** ** encoding/json

    The controller decodes two response bodies with json.Unmarshal and
    writes one request body by hand.  [JSON.parse] reads an RFC 8259 text
    into a [JSON.value]; [Unmarshal_user] and [Unmarshal_templates] below
    apply Go's decoding rules for the two target types of Create. *)
Module JSON.

Inductive value : Type :=
| Null
| Bool (b : bool)
| Number (literal : string)
| Str (s : string)
| Array (elements : list value)
| Object (members : list (string * value)).

Definition is_ws (c : ascii) : bool :=
  let n := N_of_ascii c in
  ((n =? 32) || (n =? 9) || (n =? 10) || (n =? 13))%N.

Fixpoint skip_ws (s : string) : string :=
  match s with
  | String c r => if is_ws c then skip_ws r else s
  | EmptyString => EmptyString
  end.

(** *** String literals *)

Definition hex_digit (c : ascii) : option N :=
  let n := N_of_ascii c in
  (if (48 <=? n) && (n <=? 57) then Some (n - 48)
   else if (97 <=? n) && (n <=? 102) then Some (n - 87)
   else if (65 <=? n) && (n <=? 70) then Some (n - 55)
   else None)%N.

Definition hex4 (a b c d : ascii) : option N :=
  match hex_digit a, hex_digit b, hex_digit c, hex_digit d with
  | Some x, Some y, Some z, Some w => Some (((x * 16 + y) * 16 + z) * 16 + w)%N
  | _, _, _, _ => None
  end.

Definition byte (n : N) : ascii := ascii_of_N (n mod 256).

(** UTF-8 encoding of a code point. *)
Definition utf8 (cp : N) : string :=
  (if cp <? 128 then String (byte cp) EmptyString
   else if cp <? 2048 then
     String (byte (192 + cp / 64)) (String (byte (128 + cp mod 64)) EmptyString)
   else if cp <? 65536 then
     String (byte (224 + cp / 4096))
       (String (byte (128 + (cp / 64) mod 64))
          (String (byte (128 + cp mod 64)) EmptyString))
   else
     String (byte (240 + cp / 262144))
       (String (byte (128 + (cp / 4096) mod 64))
          (String (byte (128 + (cp / 64) mod 64))
             (String (byte (128 + cp mod 64)) EmptyString))))%N.

Definition is_high_surrogate (cp : N) : bool := ((55296 <=? cp) && (cp <? 56320))%N.
Definition is_low_surrogate (cp : N) : bool := ((56320 <=? cp) && (cp <? 57344))%N.
Definition replacement_char : N := 65533%N.

(** The character a two-character escape stands for. *)
Definition unescape (e : ascii) : option ascii :=
  match N_of_ascii e with
  | 34%N => Some dquote
  | 92%N => Some backslash
  | 47%N => Some "/"%char
  | 98%N => Some (ascii_of_N 8)
  | 102%N => Some (ascii_of_N 12)
  | 110%N => Some (ascii_of_N 10)
  | 114%N => Some (ascii_of_N 13)
  | 116%N => Some (ascii_of_N 9)
  | _ => None
  end.

(** One decoded item of a string literal: a byte, or the 16-bit code unit
    of a [\uXXXX] escape. *)
Inductive item : Type :=
| Byte (c : ascii)
| CodeUnit (cp : N).

(** [string_items s] reads the characters of a string literal whose opening
    quote has been consumed, up to and including the closing quote; it
    returns the items read and the rest of the input.  Bytes from 0x80 up
    pass through unchanged: for well-formed UTF-8 that is what encoding/json
    does; an ill-formed sequence, which encoding/json replaces by U+FFFD, is
    passed through as well, so the reader is that of encoding/json on
    well-formed input only. *)
Fixpoint string_items (s : string) : option (list item * string) :=
  match s with
  | EmptyString => None
  | String c r =>
      if Ascii.eqb c dquote then Some ([], r)
      else if Ascii.eqb c backslash then
        match r with
        | EmptyString => None
        | String e r1 =>
            if Ascii.eqb e "u"%char then
              match r1 with
              | String h1 (String h2 (String h3 (String h4 r2))) =>
                  match hex4 h1 h2 h3 h4, string_items r2 with
                  | Some cp, Some (t, rest) => Some (CodeUnit cp :: t, rest)
                  | _, _ => None
                  end
              | _ => None
              end
            else
              match unescape e, string_items r1 with
              | Some ch, Some (t, rest) => Some (Byte ch :: t, rest)
              | _, _ => None
              end
        end
      else if (N_of_ascii c <? 32)%N then None
      else
        match string_items r with
        | Some (t, rest) => Some (Byte c :: t, rest)
        | None => None
        end
  end.

(** A lone code unit: surrogates become U+FFFD. *)
Definition lone (cp : N) : string :=
  if is_high_surrogate cp || is_low_surrogate cp then utf8 replacement_char
  else utf8 cp.

(** The bytes of a list of items: a high surrogate escape directly followed
    by a low surrogate escape is one code point. *)
Fixpoint decode_items (l : list item) : string :=
  match l with
  | [] => EmptyString
  | Byte c :: r => String c (decode_items r)
  | CodeUnit hi :: r =>
      match r with
      | CodeUnit lo :: r' =>
          if is_high_surrogate hi && is_low_surrogate lo
          then utf8 (65536 + (hi - 55296) * 1024 + (lo - 56320))%N ++ decode_items r'
          else lone hi ++ decode_items r
      | _ => lone hi ++ decode_items r
      end
  end.

Definition string_body (s : string) : option (string * string) :=
  match string_items s with
  | Some (l, rest) => Some (decode_items l, rest)
  | None => None
  end.

(** *** Numbers *)

Definition is_digit (c : ascii) : bool :=
  let n := N_of_ascii c in ((48 <=? n) && (n <=? 57))%N.

Definition is_number_char (c : ascii) : bool :=
  is_digit c || Ascii.eqb c "-"%char || Ascii.eqb c "+"%char
  || Ascii.eqb c "."%char || Ascii.eqb c "e"%char || Ascii.eqb c "E"%char.

(** The longest prefix made of characters that occur in numbers. *)
Fixpoint number_span (s : string) : string * string :=
  match s with
  | String c r =>
      if is_number_char c
      then let (lit, rest) := number_span r in (String c lit, rest)
      else (EmptyString, s)
  | EmptyString => (EmptyString, EmptyString)
  end.

(** The number grammar as an automaton. *)
Inductive number_state : Type :=
| NStart | NMinus | NZero | NInt | NDot | NFrac | NExp | NExpSign | NExpInt.

Definition number_step (st : number_state) (c : ascii) : option number_state :=
  let zero := Ascii.eqb c "0"%char in
  let digit := is_digit c in
  let exp := Ascii.eqb c "e"%char || Ascii.eqb c "E"%char in
  match st with
  | NStart =>
      if Ascii.eqb c "-"%char then Some NMinus
      else if zero then Some NZero else if digit then Some NInt else None
  | NMinus => if zero then Some NZero else if digit then Some NInt else None
  | NZero =>
      if Ascii.eqb c "."%char then Some NDot else if exp then Some NExp else None
  | NInt =>
      if digit then Some NInt
      else if Ascii.eqb c "."%char then Some NDot else if exp then Some NExp else None
  | NDot => if digit then Some NFrac else None
  | NFrac => if digit then Some NFrac else if exp then Some NExp else None
  | NExp =>
      if Ascii.eqb c "-"%char || Ascii.eqb c "+"%char then Some NExpSign
      else if digit then Some NExpInt else None
  | NExpSign => if digit then Some NExpInt else None
  | NExpInt => if digit then Some NExpInt else None
  end.

Fixpoint number_run (st : number_state) (lit : string) : bool :=
  match lit with
  | EmptyString =>
      match st with
      | NZero | NInt | NFrac | NExpInt => true
      | _ => false
      end
  | String c r =>
      match number_step st c with
      | Some st' => number_run st' r
      | None => false
      end
  end.

(** *** Values *)

(** [strip_prefix p s] is the rest of [s] after the prefix [p]. *)
Fixpoint strip_prefix (p s : string) : option string :=
  match p, s with
  | EmptyString, _ => Some s
  | String a p', String b s' => if Ascii.eqb a b then strip_prefix p' s' else None
  | String _ _, EmptyString => None
  end.

Definition keyword (word : string) (v : value) (s : string) : option (value * string) :=
  match strip_prefix word s with
  | Some rest => Some (v, rest)
  | None => None
  end.

(** The recursive-descent reader; [fuel] bounds the depth of the calls. *)
Fixpoint parse_value (fuel : nat) (s : string) : option (value * string) :=
  match fuel with
  | 0 => None
  | S f =>
      match skip_ws s with
      | EmptyString => None
      | String c r =>
          if Ascii.eqb c "{"%char then
            match skip_ws r with
            | String d r' =>
                if Ascii.eqb d "}"%char then Some (Object [], r')
                else
                  match parse_members f (String d r') with
                  | Some (ms, rest) => Some (Object ms, rest)
                  | None => None
                  end
            | EmptyString => None
            end
          else if Ascii.eqb c "["%char then
            match skip_ws r with
            | String d r' =>
                if Ascii.eqb d "]"%char then Some (Array [], r')
                else
                  match parse_elements f (String d r') with
                  | Some (vs, rest) => Some (Array vs, rest)
                  | None => None
                  end
            | EmptyString => None
            end
          else if Ascii.eqb c dquote then
            match string_body r with
            | Some (t, rest) => Some (Str t, rest)
            | None => None
            end
          else if Ascii.eqb c "t"%char then keyword "rue" (Bool true) r
          else if Ascii.eqb c "f"%char then keyword "alse" (Bool false) r
          else if Ascii.eqb c "n"%char then keyword "ull" Null r
          else
            let (lit, rest) := number_span (String c r) in
            if number_run NStart lit then Some (Number lit, rest) else None
      end
  end
with parse_elements (fuel : nat) (s : string) : option (list value * string) :=
  match fuel with
  | 0 => None
  | S f =>
      match parse_value f s with
      | Some (v, r) =>
          match skip_ws r with
          | String d r' =>
              if Ascii.eqb d ","%char then
                match parse_elements f r' with
                | Some (vs, rest) => Some (v :: vs, rest)
                | None => None
                end
              else if Ascii.eqb d "]"%char then Some ([v], r')
              else None
          | EmptyString => None
          end
      | None => None
      end
  end
with parse_members (fuel : nat) (s : string) : option (list (string * value) * string) :=
  match fuel with
  | 0 => None
  | S f =>
      match skip_ws s with
      | String q r =>
          if Ascii.eqb q dquote then
            match string_body r with
            | Some (k, r1) =>
                match skip_ws r1 with
                | String colon r2 =>
                    if Ascii.eqb colon ":"%char then
                      match parse_value f r2 with
                      | Some (v, r3) =>
                          match skip_ws r3 with
                          | String d r4 =>
                              if Ascii.eqb d ","%char then
                                match parse_members f r4 with
                                | Some (ms, rest) => Some ((k, v) :: ms, rest)
                                | None => None
                                end
                              else if Ascii.eqb d "}"%char then Some ([(k, v)], r4)
                              else None
                          | EmptyString => None
                          end
                      | None => None
                      end
                    else None
                | EmptyString => None
                end
            | None => None
            end
          else None
      | EmptyString => None
      end
  end.

(** [s] is a JSON text for [v]: one value with nothing but white space
    around it, read with some amount of fuel. *)
Definition reads (s : string) (v : value) : Prop :=
  exists fuel rest, parse_value fuel s = Some (v, rest) /\ skip_ws rest = EmptyString.

(** The reader as a function, with one unit of fuel for each character and
    one to spare. *)
Definition parse (s : string) : option value :=
  match parse_value (S (String.length s)) s with
  | Some (v, rest) =>
      match skip_ws rest with
      | EmptyString => Some v
      | String _ _ => None
      end
  | None => None
  end.

(** *** Go's decoding rules *)

Definition to_lower (c : ascii) : ascii :=
  let n := N_of_ascii c in
  (if (65 <=? n) && (n <=? 90) then ascii_of_N (n + 32) else c)%N.

(** Equality of two texts without regard to the case of ASCII letters. *)
Fixpoint equal_fold (a b : string) : bool :=
  match a, b with
  | EmptyString, EmptyString => true
  | String x a', String y b' => Ascii.eqb (to_lower x) (to_lower y) && equal_fold a' b'
  | _, _ => false
  end.

(** Unicode case folding puts two characters outside ASCII into the class
    of an ASCII letter: U+017F (long s, bytes C5 BF) folds to s and U+212A
    (Kelvin sign, bytes E2 84 AA) folds to k.  No other character outside
    ASCII folds to one inside. *)
Fixpoint fold_runes (s : string) : string :=
  match s with
  | EmptyString => EmptyString
  | String a r =>
      match r with
      | EmptyString => String a EmptyString
      | String b r1 =>
          if ((N_of_ascii a =? 197) && (N_of_ascii b =? 191))%N
          then String "s" (fold_runes r1)
          else
            match r1 with
            | EmptyString => String a (fold_runes r)
            | String c r2 =>
                if ((N_of_ascii a =? 226) && (N_of_ascii b =? 132)
                    && (N_of_ascii c =? 170))%N
                then String "k" (fold_runes r2)
                else String a (fold_runes r)
            end
      end
  end.

(** An object key matches a field name (ASCII, as all the field names of
    this program are) when the two are equal under Unicode case folding:
    encoding/json looks for an exact match first and for a folded one
    next, which for a single field comes to the folded comparison. *)
Definition matches_field (key field : string) : bool :=
  equal_fold (fold_runes key) field.

(** Decoding into a [string]: null leaves the target as it is. *)
Definition into_string (v : value) (old : string) : res string :=
  match v with
  | Str s => Ok s
  | Null => Ok old
  | _ => Err json_UnmarshalTypeError
  end.

(** Decoding into a [[]string]: the elements are decoded in place, one
    after the other, over those the slice already has ([old], empty on the
    first decoding); null gives the nil slice. *)
Fixpoint into_strings (vs : list value) (old : list string) : res (list string) :=
  match vs with
  | [] => Ok []
  | v :: r =>
      match into_string v (hd EmptyString old), into_strings r (tl old) with
      | Ok s, Ok l => Ok (s :: l)
      | Err e, _ => Err e
      | _, Err e => Err e
      end
  end.

Definition into_string_slice (v : value) (old : list string) : res (list string) :=
  match v with
  | Array vs => into_strings vs old
  | Null => Ok []
  | _ => Err json_UnmarshalTypeError
  end.

End JSON.

(* ================================================================= *)
(** ** API types (package v1alpha1) *)

(** xpv1.Reference and the part of xpv1.ResourceSpec the controller reads.
    The reference is a pointer in Go, hence an [option]. *)
Record Reference : Type := { Reference_Name : string }.

Record ResourceSpec : Type := { ProviderConfigReference : option Reference }.

(** WorkspaceParameters are the configurable fields of a Workspace.  The
    controller also reads [UserName] and [Template] from them; the types
    file at hand does not declare these two, they are added here as the
    controller uses them (both strings). *)
Record WorkspaceParameters : Type := {
  ImageID : string;
  OrgID : string;
  ImageTag : string;
  CPUCores : string;
  MemoryGB : string;
  DiskGB : Z;
  GPUs : Z;
  UseContainerVM : bool;
  ResourcePoolID : string;
  Namespace : string;
  EnableAutoStart : bool;
  ForUserID : option string;
  TemplateID : option string;
  UserName : string;
  Template : string
}.

(** WorkspaceObservation are the observable fields of a Workspace. *)
Record WorkspaceObservation : Type := {
  LatestStat : string;
  ObservableField : string
}.

Record WorkspaceSpec : Type := {
  Spec_ResourceSpec : ResourceSpec;
  ForProvider : WorkspaceParameters
}.

Record WorkspaceStatus : Type := { AtProvider : WorkspaceObservation }.

(** metav1.ObjectMeta, reduced to the name. *)
Record ObjectMeta : Type := { Name : string }.

Record Workspace : Type := {
  Workspace_ObjectMeta : ObjectMeta;
  Spec : WorkspaceSpec;
  Status : WorkspaceStatus
}.

(** The Token kind of the same API group. *)
Record TokenParameters : Type := { ConfigurableField : string }.

Record TokenObservation : Type := { Token_ObservableField : string }.

Record Token : Type := {
  Token_ObjectMeta : ObjectMeta;
  Token_ResourceSpec : ResourceSpec;
  Token_ForProvider : TokenParameters;
  Token_AtProvider : TokenObservation
}.

(** resource.Managed: the kinds registered by this provider.  The type
    assertion of Connect, Observe, Create, Update and Delete to a pointer
    to Workspace is a match on this variant. *)
Inductive Managed : Type :=
| MWorkspace (cr : Workspace)
| MToken (t : Token).

Definition GetName (cr : Workspace) : string := Name (Workspace_ObjectMeta cr).

Definition GetProviderConfigReference (cr : Workspace) : option Reference :=
  ProviderConfigReference (Spec_ResourceSpec (Spec cr)).

(* ================================================================= *)
(** ** Results of the managed reconciler's interface *)

(** managed.ConnectionDetails, a map from key to bytes.  The controller only
    ever builds the empty one. *)
Definition ConnectionDetails : Type := list (string * string).

Record ExternalObservation : Type := {
  ResourceExists : bool;
  ResourceUpToDate : bool;
  Observation_ConnectionDetails : ConnectionDetails
}.

Record ExternalCreation : Type := { Creation_ConnectionDetails : ConnectionDetails }.

Record ExternalUpdate : Type := { Update_ConnectionDetails : ConnectionDetails }.

(** The zero values [managed.ExternalObservation{}] and so on. *)
Definition zero_ExternalObservation : ExternalObservation :=
  {| ResourceExists := false; ResourceUpToDate := false;
     Observation_ConnectionDetails := [] |}.
Definition zero_ExternalCreation : ExternalCreation :=
  {| Creation_ConnectionDetails := [] |}.
Definition zero_ExternalUpdate : ExternalUpdate :=
  {| Update_ConnectionDetails := [] |}.

(* ================================================================= *)
(** ** The outside world: HTTP, the coder CLI, standard output *)

(** A request as the controller determines it: the method it calls, the
    host URL it configures, the path it passes, the headers it sets and the
    body it sets.  What resty adds on its own on the way out (a User-Agent
    header, the split of a query after a question mark, the loss of a
    fragment after a hash sign, the escaping of the path) is not part of
    it. *)
Record Request : Type := {
  Method : string;
  HostURL : string;
  Path : string;
  Header : list (string * string);
  Body : string
}.

(** resty.Response as the controller reads it: [StatusCode()] and [Body()]. *)
Record Response : Type := {
  StatusCode : Z;
  ResponseBody : string
}.

(** exec.Command(name, args...). *)
Record Cmd : Type := {
  Cmd_Path : string;
  Cmd_Args : list string
}.

Inductive Call : Type :=
| HTTP (req : Request)
| Exec (cmd : Cmd).

(** The environment of one reconcile: a remote service with some state,
    reached by HTTP round trips (which yield a response and an error, as
    resty's [Get] and [Post] do when the request goes out; when the
    transport fails resty still hands back a response, with status 0 and an
    empty body) and by running the CLI
    (which yields the standard output and an error, as [cmd.Output()]
    does); and fmt's [%+v] rendering of a Workspace. *)
Record Environment : Type := {
  Remote : Type;
  RoundTrip : Remote -> Request -> Remote * (Response * option error);
  Run : Remote -> Cmd -> Remote * (string * option error);
  Format : Workspace -> string
}.

(** The state threaded through the controller: the remote service, the calls
    issued so far (oldest first) and what was printed. *)
Record World (E : Environment) : Type := {
  remote : Remote E;
  calls : list Call;
  stdout : list string
}.
Arguments remote {E} w.
Arguments calls {E} w.
Arguments stdout {E} w.

Definition M (E : Environment) (A : Type) : Type := World E -> A * World E.

Definition ret {E : Environment} {A : Type} (a : A) : M E A := fun w => (a, w).

Definition bind {E : Environment} {A B : Type} (m : M E A) (k : A -> M E B) : M E B :=
  fun w => let (a, w') := m w in k a w'.

Notation "x <- m ;; k" := (bind m (fun x => k))
  (at level 61, m at next level, right associativity).
Notation "m ;;; k" := (bind m (fun _ => k))
  (at level 61, right associativity).

(** fmt.Printf of an already formatted text. *)
Definition Printf {E : Environment} (text : string) : M E unit :=
  fun w => (tt, {| remote := remote w; calls := calls w; stdout := stdout w ++ [text] |}).

(** fmt.Println: the operands separated by spaces, then a newline. *)
Definition newline : string := String (ascii_of_N 10) EmptyString.

Definition Println {E : Environment} (operands : list string) : M E unit :=
  Printf (String.concat " " operands ++ newline).

(** [cmd.Output()]: runs the command against the remote service. *)
Definition Output {E : Environment} (cmd : Cmd) : M E (string * option error) :=
  fun w =>
    let (rem, out) := Run E (remote w) cmd in
    (out, {| remote := rem; calls := calls w ++ [Exec cmd]; stdout := stdout w |}).

(* ================================================================= *)
(** ** resty *)

(** [strings.TrimRight s c] for a one-character cutset. *)
Fixpoint TrimRight (s : string) (c : ascii) : string :=
  match s with
  | EmptyString => EmptyString
  | String d r =>
      match TrimRight r c with
      | EmptyString => if Ascii.eqb d c then EmptyString else String d EmptyString
      | String _ _ as r' => String d r'
      end
  end.

Record resty_Client : Type := { Client_HostURL : string }.

Definition resty_New : resty_Client := {| Client_HostURL := "" |}.

Record resty_Request : Type := {
  Request_Client : resty_Client;
  Request_Header : list (string * string);
  Request_Body : string
}.

(** Method chains are written with [|>]: the receiver comes first, each
    method takes it as its last argument. *)
Notation "x |> f" := (f x) (at level 59, left associativity, only parsing).

(** SetHostURL stores the URL without its trailing slashes.  It updates the
    client in place and returns it; every request of the controller sets the
    URL anew before it is built, so the update is passed on by value. *)
Definition SetHostURL (url : string) (c : resty_Client) : resty_Client :=
  {| Client_HostURL := TrimRight url "/"%char |}.

Definition R (c : resty_Client) : resty_Request :=
  {| Request_Client := c; Request_Header := []; Request_Body := "" |}.

(** Tracing collects timings and changes nothing that is sent. *)
Definition EnableTrace (r : resty_Request) : resty_Request := r.

Definition SetHeader (key val : string) (r : resty_Request) : resty_Request :=
  {| Request_Client := Request_Client r;
     Request_Header :=
       filter (fun kv => negb (String.eqb (fst kv) key)) (Request_Header r) ++ [(key, val)];
     Request_Body := Request_Body r |}.

Definition SetBody (body : string) (r : resty_Request) : resty_Request :=
  {| Request_Client := Request_Client r;
     Request_Header := Request_Header r;
     Request_Body := body |}.

(** The request that resty is asked to send: the controller's part of what
    goes out. *)
Definition wire (method : string) (path : string) (r : resty_Request) : Request :=
  {| Method := method;
     HostURL := Client_HostURL (Request_Client r);
     Path := path;
     Header := Request_Header r;
     Body := Request_Body r |}.

(** One round trip of a request that resty can build; the call is appended
    to the world's record.  When resty cannot build the request (a host URL
    or a path that url.Parse rejects) it sends nothing and hands back no
    response at all, and the controller's next [StatusCode()] or [Body()]
    fails on the nil response: that path lies outside this model, whose
    statements speak of the requests that go out and of their answers. *)
Definition Execute {E : Environment} (method : string) (path : string) (r : resty_Request)
  : M E (Response * option error) :=
  fun w =>
    let req := wire method path r in
    let (rem, reply) := RoundTrip E (remote w) req in
    (reply, {| remote := rem; calls := calls w ++ [HTTP req]; stdout := stdout w |}).

Definition Get {E : Environment} (path : string) (r : resty_Request)
  : M E (Response * option error) := Execute "GET" path r.

Definition Post {E : Environment} (path : string) (r : resty_Request)
  : M E (Response * option error) := Execute "POST" path r.

(* ================================================================= *)
(** ** Package workspace: the controller *)

Definition errNotWorkspace : string := "managed resource is not a Workspace custom resource".
Definition errTrackPCUsage : string := "cannot track ProviderConfig usage".
Definition errGetPC : string := "cannot get ProviderConfig".
Definition errGetCreds : string := "cannot get credentials".
Definition errNewClient : string := "cannot create new Service".

(** A CoderService does nothing. *)
Record CoderService : Type := {
  pCLI : resty_Client;
  token : string;
  coderurl : string
}.

(** The credentials are a byte slice in Go; a [string] here is a sequence of
    bytes, so [string(creds)] is the identity. *)
Definition newCoderService (creds : string) (coderURL : string) : res CoderService :=
  Ok {| pCLI := resty_New; token := creds; coderurl := coderURL |}.

(** An ExternalClient observes, then either creates, updates, or deletes an
    external resource. *)
Record external : Type := { service : CoderService }.

(** *** Connect *)

(** xpv1.CommonCredentialSelectors: where the credentials are kept. *)
Record SecretKeySelector : Type := {
  Secret_Namespace : string;
  Secret_Name : string;
  Secret_Key : string
}.

Record CommonCredentialSelectors : Type := {
  Fs : option string;
  Env : option string;
  SecretRef : option SecretKeySelector
}.

Record ProviderCredentials : Type := {
  Source : string;
  Selectors : CommonCredentialSelectors
}.

(** Modelled from the spec: the ProviderConfig type of apis/v1alpha1 is not
    among the sources.  It holds the credentials (a source and its
    selectors) and the endpoint URL, under the names by which Connect reads
    them from its spec. *)
Record ProviderConfig : Type := {
  Credentials : ProviderCredentials;
  CoderUrl : string
}.

(** client.Client: reading a ProviderConfig by name. *)
Record client_Client : Type := {
  kube_Get : string -> res ProviderConfig
}.

(** A connector is expected to produce an ExternalClient when its Connect
    method is called.  [usage] is the Track method of a resource.Tracker;
    [extractor] is resource.CommonCredentialExtractor, which reads the
    selected secret, environment variable or file. *)
Record connector : Type := {
  kube : client_Client;
  usage : Managed -> option error;
  newServiceFn : string -> string -> res CoderService;
  extractor : string -> client_Client -> CommonCredentialSelectors -> res string
}.

(** Connect: track the usage, get the ProviderConfig, get its credentials,
    form a client.  Reading the name of an unset reference dereferences a
    nil pointer. *)
Definition Connect (c : connector) (mg : Managed) : go_result (res external) :=
  match mg with
  | MToken _ => Returns (Err (errors_New errNotWorkspace))
  | MWorkspace cr =>
      match usage c mg with
      | Some err => Returns (Err (errors_Wrap err errTrackPCUsage))
      | None =>
          match GetProviderConfigReference cr with
          | None => Panics "invalid memory address or nil pointer dereference"
          | Some ref =>
              match kube_Get (kube c) (Reference_Name ref) with
              | Err err => Returns (Err (errors_Wrap err errGetPC))
              | Ok pc =>
                  let cd := Credentials pc in
                  match extractor c (Source cd) (kube c) (Selectors cd) with
                  | Err err => Returns (Err (errors_Wrap err errGetCreds))
                  | Ok data =>
                      match newServiceFn c data (CoderUrl pc) with
                      | Err err => Returns (Err (errors_Wrap err errNewClient))
                      | Ok svc => Returns (Ok {| service := svc |})
                      end
                  end
              end
          end
      end
  end.

(** The connector that Setup installs builds its clients with
    [newCoderService]. *)
Definition setup_connector (k : client_Client) (track : Managed -> option error)
    (extract : string -> client_Client -> CommonCredentialSelectors -> res string)
  : connector :=
  {| kube := k; usage := track; newServiceFn := newCoderService; extractor := extract |}.

(** *** Observe *)

Definition Observe {E : Environment} (c : external) (mg : Managed)
  : M E (ExternalObservation * option error) :=
  match mg with
  | MToken _ => ret (zero_ExternalObservation, Some (errors_New errNotWorkspace))
  | MWorkspace cr =>
      let workspace_name := GetName cr in
      Printf ("Observing: " ++ Format E cr) ;;;
      reply <- (pCLI (service c)
                |> SetHostURL (coderurl (service c))
                |> R |> EnableTrace
                |> SetHeader "Accept" "application/json"
                |> SetHeader "Coder-Session-Token" (token (service c))
                |> Get ("/api/v2/users/me/workspace/" ++ workspace_name)) ;;
      let resp := fst reply in
      if negb (StatusCode resp =? 200)%Z then
        ret ({| ResourceExists := false;
                ResourceUpToDate := false;
                Observation_ConnectionDetails := [] |}, None)
      else
        ret ({| ResourceExists := true;
                ResourceUpToDate := true;
                Observation_ConnectionDetails := [] |}, None)
  end.

(** *** Create *)

(** The two anonymous structs Create decodes into. *)
Record user : Type := {
  user_ID : string;
  user_Name : string;
  Organization_ids : list string
}.

Record template : Type := {
  template_ID : string;
  template_Name : string
}.

Definition zero_user : user :=
  {| user_ID := ""; user_Name := ""; Organization_ids := [] |}.
Definition zero_template : template :=
  {| template_ID := ""; template_Name := "" |}.

(** json.Unmarshal into the user struct: each member whose key matches a
    field is decoded into it, a later member overrides an earlier one, other
    members are skipped. *)
Fixpoint user_members (ms : list (string * JSON.value)) (u : user) : res user :=
  match ms with
  | [] => Ok u
  | (k, v) :: r =>
      if JSON.matches_field k "id" then
        match JSON.into_string v (user_ID u) with
        | Ok s => user_members r {| user_ID := s; user_Name := user_Name u;
                                    Organization_ids := Organization_ids u |}
        | Err e => Err e
        end
      else if JSON.matches_field k "name" then
        match JSON.into_string v (user_Name u) with
        | Ok s => user_members r {| user_ID := user_ID u; user_Name := s;
                                    Organization_ids := Organization_ids u |}
        | Err e => Err e
        end
      else if JSON.matches_field k "organization_ids" then
        match JSON.into_string_slice v (Organization_ids u) with
        | Ok l => user_members r {| user_ID := user_ID u; user_Name := user_Name u;
                                    Organization_ids := l |}
        | Err e => Err e
        end
      else user_members r u
  end.

Definition Unmarshal_user (body : string) : res user :=
  match JSON.parse body with
  | None => Err json_SyntaxError
  | Some (JSON.Object ms) => user_members ms zero_user
  | Some JSON.Null => Ok zero_user
  | Some _ => Err json_UnmarshalTypeError
  end.

Fixpoint template_members (ms : list (string * JSON.value)) (t : template) : res template :=
  match ms with
  | [] => Ok t
  | (k, v) :: r =>
      if JSON.matches_field k "id" then
        match JSON.into_string v (template_ID t) with
        | Ok s => template_members r {| template_ID := s; template_Name := template_Name t |}
        | Err e => Err e
        end
      else if JSON.matches_field k "name" then
        match JSON.into_string v (template_Name t) with
        | Ok s => template_members r {| template_ID := template_ID t; template_Name := s |}
        | Err e => Err e
        end
      else template_members r t
  end.

Definition into_template (v : JSON.value) : res template :=
  match v with
  | JSON.Object ms => template_members ms zero_template
  | JSON.Null => Ok zero_template
  | _ => Err json_UnmarshalTypeError
  end.

Fixpoint into_templates (vs : list JSON.value) : res (list template) :=
  match vs with
  | [] => Ok []
  | v :: r =>
      match into_template v, into_templates r with
      | Ok t, Ok l => Ok (t :: l)
      | Err e, _ => Err e
      | _, Err e => Err e
      end
  end.

Definition Unmarshal_templates (body : string) : res (list template) :=
  match JSON.parse body with
  | None => Err json_SyntaxError
  | Some (JSON.Array vs) => into_templates vs
  | Some JSON.Null => Ok []
  | Some _ => Err json_UnmarshalTypeError
  end.

(** The loop over the templates: the id of the first one with the wanted
    name, the empty string when there is none. *)
Fixpoint lookupTemplateID (templates : list template) (name : string) : string :=
  match templates with
  | [] => ""
  | t :: r =>
      if String.eqb (template_Name t) name then template_ID t
      else lookupTemplateID r name
  end.

(** The body of the creation request, put together by concatenation. *)
Definition body_open : string := Eval cbv in js "{'template_id':'".
Definition body_middle : string := Eval cbv in js "','name':'".
Definition body_close : string := Eval cbv in js "'}".

Definition createBody (templateID objectName : string) : string :=
  body_open ++ templateID ++ body_middle ++ objectName ++ body_close.

(** What fmt.Errorf makes of [%w] applied to a string. *)
Definition bad_verb_w (s : string) : string := "%!w(string=" ++ s ++ ")".

Definition Create {E : Environment} (c : external) (mg : Managed)
  : M E (go_result (ExternalCreation * option error)) :=
  match mg with
  | MToken _ => ret (Returns (zero_ExternalCreation, Some (errors_New errNotWorkspace)))
  | MWorkspace cr =>
      Printf "Creating: %!v(MISSING)" ;;;
      let username := ReplaceAll (UserName (ForProvider (Spec cr))) dot "" in
      Printf "get User" ;;;
      resp_user <- (pCLI (service c)
                    |> SetHostURL (coderurl (service c))
                    |> R |> EnableTrace
                    |> SetHeader "Accept" "application/json"
                    |> SetHeader "Coder-Session-Token" (token (service c))
                    |> Get ("/api/v2/users/" ++ username)) ;;
      match Unmarshal_user (ResponseBody (fst resp_user)) with
      | Err err =>
          ret (Returns (zero_ExternalCreation,
                        Some (fmt_Errorf_w "failed to decode user response: " err)))
      | Ok user =>
          Printf "get Templates" ;;;
          match Organization_ids user with
          | [] => ret (Panics "index out of range [0] with length 0")
          | org0 :: _ =>
              resp_temp <- (pCLI (service c)
                            |> SetHostURL (coderurl (service c))
                            |> R |> EnableTrace
                            |> SetHeader "Accept" "application/json"
                            |> SetHeader "Coder-Session-Token" (token (service c))
                            |> Get ("/api/v2/organizations/" ++ org0 ++ "/templates")) ;;
              Printf "get Templates" ;;;
              match Unmarshal_templates (ResponseBody (fst resp_temp)) with
              | Err err =>
                  ret (Returns (zero_ExternalCreation,
                                Some (fmt_Errorf_w "failed to decode templates response: " err)))
              | Ok templates =>
                  let templateID :=
                    lookupTemplateID templates (Template (ForProvider (Spec cr))) in
                  if String.eqb templateID "" then
                    ret (Returns (zero_ExternalCreation, Some (errors_New "template not found")))
                  else
                    resp <- (pCLI (service c)
                             |> SetHostURL (coderurl (service c))
                             |> R |> EnableTrace
                             |> SetHeader "Content-Type" "application/json"
                             |> SetHeader "Accept" "application/json"
                             |> SetHeader "Coder-Session-Token" (token (service c))
                             |> SetBody (createBody templateID (GetName cr))
                             |> Post ("/api/v2/organizations/" ++ org0 ++ "/members/"
                                      ++ user_ID user ++ "/workspaces")) ;;
                    if negb (StatusCode (fst resp) =? 201)%Z then
                      ret (Returns (zero_ExternalCreation,
                                    Some (fmt_Errorf ("could not create workspace: "
                                                      ++ bad_verb_w (user_Name user)))))
                    else
                      ret (Returns ({| Creation_ConnectionDetails := [] |}, None))
              end
          end
      end
  end.

(** *** Update *)

Definition Update {E : Environment} (c : external) (mg : Managed)
  : M E (ExternalUpdate * option error) :=
  match mg with
  | MToken _ => ret (zero_ExternalUpdate, Some (errors_New errNotWorkspace))
  | MWorkspace cr =>
      Printf ("Updating: " ++ Format E cr) ;;;
      ret ({| Update_ConnectionDetails := [] |}, None)
  end.

(** *** Delete *)

Definition Command (name : string) (args : list string) : Cmd :=
  {| Cmd_Path := name; Cmd_Args := args |}.

Definition Delete {E : Environment} (c : external) (mg : Managed) : M E (option error) :=
  match mg with
  | MToken _ => ret (Some (errors_New errNotWorkspace))
  | MWorkspace cr =>
      Printf ("Deleting: " ++ Format E cr) ;;;
      let username := ReplaceAll (UserName (ForProvider (Spec cr))) dot "" in
      let cmd := Command "/usr/local/bin/coder"
                   ["delete"; username ++ "/" ++ GetName cr; "--yes";
                    "--url"; coderurl (service c); "--token"; token (service c)] in
      o <- Output cmd ;;
      let (out, err) := o in
      match err with
      | Some e =>
          (* if there was any error, print it here *)
          Println ["could not run command: "; Error e]
      | None => ret tt
      end ;;;
      Println ["Output: "; out] ;;;
      ret None
  end.

(* ================================================================= *)
(** ** Vocabulary of the statements *)

(** The requests as the controller hands them to resty. *)
Definition get_request (c : external) (path : string) : Request :=
  {| Method := "GET";
     HostURL := TrimRight (coderurl (service c)) "/"%char;
     Path := path;
     Header := [("Accept", "application/json");
                ("Coder-Session-Token", token (service c))];
     Body := "" |}.

Definition post_request (c : external) (path body : string) : Request :=
  {| Method := "POST";
     HostURL := TrimRight (coderurl (service c)) "/"%char;
     Path := path;
     Header := [("Content-Type", "application/json");
                ("Accept", "application/json");
                ("Coder-Session-Token", token (service c))];
     Body := body |}.

(** The existence probe of Observe. *)
Definition observe_request (c : external) (cr : Workspace) : Request :=
  get_request c ("/api/v2/users/me/workspace/" ++ GetName cr).

(** The user name with its dots removed, as Create and Delete use it. *)
Definition username_of (cr : Workspace) : string :=
  ReplaceAll (UserName (ForProvider (Spec cr))) dot "".

(** The command line of Delete. *)
Definition delete_command (c : external) (cr : Workspace) : Cmd :=
  Command "/usr/local/bin/coder"
    ["delete"; username_of cr ++ "/" ++ GetName cr;
     "--yes"; "--url"; coderurl (service c); "--token"; token (service c)].

(** The three requests of Create. *)

Definition user_request (c : external) (cr : Workspace) : Request :=
  get_request c ("/api/v2/users/" ++ username_of cr).

Definition templates_request (c : external) (org : string) : Request :=
  get_request c ("/api/v2/organizations/" ++ org ++ "/templates").

Definition create_request (c : external) (org userID body : string) : Request :=
  post_request c ("/api/v2/organizations/" ++ org ++ "/members/" ++ userID ++ "/workspaces")
    body.

(** In state [r] the remote service answers the user lookup of [cr] with a
    body that decodes to [u], and goes to state [r1]. *)
Definition user_lookup {E : Environment} (c : external) (cr : Workspace)
    (r r1 : Remote E) (u : user) : Prop :=
  exists resp err,
    RoundTrip E r (user_request c cr) = (r1, (resp, err))
    /\ Unmarshal_user (ResponseBody resp) = Ok u.

(** In state [r1] the remote service answers the request for the templates
    of [org] with a body that decodes to [ts], and goes to state [r2]. *)
Definition templates_lookup {E : Environment} (c : external) (org : string)
    (r1 r2 : Remote E) (ts : list template) : Prop :=
  exists resp err,
    RoundTrip E r1 (templates_request c org) = (r2, (resp, err))
    /\ Unmarshal_templates (ResponseBody resp) = Ok ts.

(** The lines Create prints before it resolves the template. *)
Definition create_log : list string :=
  ["Creating: %!v(MISSING)"; "get User"; "get Templates"; "get Templates"].

(** The object the body of the creation request is meant to encode. *)
Definition body_object (templateID objectName : string) : JSON.value :=
  JSON.Object [("template_id", JSON.Str templateID); ("name", JSON.Str objectName)].

(** The characters that cannot stand for themselves inside a JSON string
    literal: the double quote, the backslash and the control characters. *)
Definition special (c : ascii) : bool :=
  Ascii.eqb c dquote || Ascii.eqb c backslash || (N_of_ascii c <? 32)%N.

Fixpoint specials (s : string) : nat :=
  match s with
  | EmptyString => 0
  | String c r => (if special c then 1 else 0) + specials r
  end.

(** A lower bound on the number of characters a literal for [s] takes,
    quotes not counted: a special character takes at least two. *)
Definition weight (s : string) : nat := String.length s + specials s.

(** The same for the items of a literal, *)
Definition item_cost (i : JSON.item) : nat :=
  match i with
  | JSON.Byte c => if special c then 2 else 1
  | JSON.CodeUnit _ => 6
  end.

Fixpoint items_cost (l : list JSON.item) : nat :=
  match l with
  | [] => 0
  | i :: r => item_cost i + items_cost r
  end.

(** and for the texts of strings and of objects, whose members each take
    a key in quotes, a colon, a value and a comma or the closing brace. *)
Fixpoint value_size (v : JSON.value) : nat :=
  match v with
  | JSON.Str t => 2 + weight t
  | JSON.Object ms =>
      1 + (fix members_size (ms : list (string * JSON.value)) : nat :=
             match ms with
             | [] => 0
             | (k, v') :: r => 4 + weight k + value_size v' + members_size r
             end) ms
  | _ => 0
  end.

Fixpoint members_size (ms : list (string * JSON.value)) : nat :=
  match ms with
  | [] => 0
  | (k, v) :: r => 4 + weight k + value_size v + members_size r
  end.

(** A request that goes to the configured host and carries the session
    token and the Accept header. *)
Definition authenticated (c : external) (req : Request) : Prop :=
  HostURL req = TrimRight (coderurl (service c)) "/"%char
  /\ In ("Coder-Session-Token", token (service c)) (Header req)
  /\ In ("Accept", "application/json") (Header req).

Definition is_get (c : external) (call : Call) : Prop :=
  exists req, call = HTTP req /\ Method req = "GET" /\ authenticated c req.

Definition is_post (c : external) (call : Call) : Prop :=
  exists req, call = HTTP req /\ Method req = "POST" /\ authenticated c req.

(** [s] begins with [p]. *)
Definition starts_with (p s : string) : Prop := exists rest, s = p ++ rest.

(** The fixed messages of Connect. *)
Definition connect_messages : list string :=
  [errNotWorkspace; errTrackPCUsage; errGetPC; errGetCreds; errNewClient].

(** A reply that speaks of a transient failure: a 5xx status, or an error
    of the transport. *)
Definition transient (reply : Response * option error) : Prop :=
  (500 <= StatusCode (fst reply) < 600)%Z \/ snd reply <> None.

(** The error classes of the connector, by the message Connect wraps the
    cause in. *)
Definition CredentialResolutionError (e : error) : Prop :=
  exists cause, e = errors_Wrap cause errGetPC \/ e = errors_Wrap cause errGetCreds.

Definition ClientConstructionError (e : error) : Prop :=
  exists cause, e = errors_Wrap cause errNewClient.

(* ================================================================= *)
(** ** Test doubles *)

Module Fixture.

(** A stateless remote service: a table from method and path to the
    response, 404 with an empty body for everything else; no round trip
    fails in transport.  The CLI always yields [cli].  In all test doubles
    a Workspace is printed as its name. *)
Fixpoint route (table : list (string * string * Response)) (method path : string) : Response :=
  match table with
  | [] => {| StatusCode := 404; ResponseBody := "" |}
  | (m, p, resp) :: r =>
      if String.eqb m method && String.eqb p path then resp else route r method path
  end.

Definition stub (table : list (string * string * Response)) (cli : string * option error)
  : Environment :=
  {| Remote := unit;
     RoundTrip := fun _ req => (tt, (route table (Method req) (Path req), None));
     Run := fun _ _ => (tt, cli);
     Format := GetName |}.

Definition start (E : Environment) (r : Remote E) : World E :=
  {| remote := r; calls := []; stdout := [] |}.

Definition params (userName templateName org : string) : WorkspaceParameters :=
  {| ImageID := ""; OrgID := org; ImageTag := ""; CPUCores := ""; MemoryGB := "";
     DiskGB := 0; GPUs := 0; UseContainerVM := false; ResourcePoolID := "";
     Namespace := ""; EnableAutoStart := false; ForUserID := None; TemplateID := None;
     UserName := userName; Template := templateName |}.

Definition workspace (name userName templateName org : string) : Workspace :=
  {| Workspace_ObjectMeta := {| Name := name |};
     Spec := {| Spec_ResourceSpec :=
                  {| ProviderConfigReference := Some {| Reference_Name := "default" |} |};
                ForProvider := params userName templateName org |};
     Status := {| AtProvider := {| LatestStat := ""; ObservableField := "" |} |} |}.

(** The desired state of the scenario: user jane.doe, template base-image,
    organization org1; the object is called ws1. *)
Definition ws1 : Workspace := workspace "ws1" "jane.doe" "base-image" "org1".

Definition client : external :=
  {| service := {| pCLI := resty_New; token := "secret"; coderurl := "https://coder.example/" |} |}.

Definition ok (body : string) : Response := {| StatusCode := 200; ResponseBody := body |}.

(** jane.doe belongs to org0 and org1, in this order; both organizations
    have a template called base-image. *)
Definition janedoe : string :=
  js "{'id':'u1','name':'janedoe','organization_ids':['org0','org1']}".

Definition two_orgs : list (string * string * Response) :=
  [ ("GET", "/api/v2/users/janedoe", ok janedoe);
    ("GET", "/api/v2/organizations/org0/templates",
      ok (js "[{'id':'t0','name':'base-image'}]"));
    ("GET", "/api/v2/organizations/org1/templates",
      ok (js "[{'id':'t1','name':'base-image'}]"));
    ("POST", "/api/v2/organizations/org0/members/u1/workspaces",
      {| StatusCode := 201; ResponseBody := "{}" |});
    ("POST", "/api/v2/organizations/org1/members/u1/workspaces",
      {| StatusCode := 201; ResponseBody := "{}" |}) ].

(** The workspace ws1 exists (the probe answers 200); the probe of ws2 is
    answered 503, service unavailable; the CLI fails. *)
Definition unavailable : list (string * string * Response) :=
  [ ("GET", "/api/v2/users/me/workspace/ws1", ok "{}");
    ("GET", "/api/v2/users/me/workspace/ws2",
      {| StatusCode := 503; ResponseBody := "" |}) ].

Definition ws2 : Workspace := workspace "ws2" "jane.doe" "base-image" "org1".

Definition cli_failure : string * option error := ("", Some (errors_New "exit status 1")).

(** A cluster with one ProviderConfig, called default, whose secret holds
    the token. *)
Definition provider_config : ProviderConfig :=
  {| Credentials :=
       {| Source := "Secret";
          Selectors := {| Fs := None; Env := None;
                          SecretRef := Some {| Secret_Namespace := "crossplane-system";
                                               Secret_Name := "coder-creds";
                                               Secret_Key := "token" |} |} |};
     CoderUrl := "https://coder.example/" |}.

Definition cluster : client_Client :=
  {| kube_Get := fun name =>
       if String.eqb name "default" then Ok provider_config
       else Err (errors_New "providerconfigs not found") |}.

Definition read_secret (source : string) (k : client_Client) (sel : CommonCredentialSelectors)
  : res string :=
  match SecretRef sel with
  | Some _ => Ok "secret"
  | None => Err (errors_New "no credentials secret reference was provided")
  end.

(** The tracker of ProviderConfig usages refuses a managed resource that
    names no ProviderConfig, and records the usage of the others. *)
Definition tracker (mg : Managed) : option error :=
  match mg with
  | MWorkspace cr =>
      match GetProviderConfigReference cr with
      | Some _ => None
      | None => Some (errors_New "managed resource does not reference a ProviderConfig")
      end
  | MToken t =>
      match ProviderConfigReference (Token_ResourceSpec t) with
      | Some _ => None
      | None => Some (errors_New "managed resource does not reference a ProviderConfig")
      end
  end.

(** The connector as Setup installs it, on this cluster. *)
Definition installed : connector := setup_connector cluster tracker read_secret.

(** The same connector in a cluster where the usage cannot be recorded. *)
Definition flaky : connector :=
  setup_connector cluster
    (fun _ => Some (errors_New "cannot apply ProviderConfigUsage")) read_secret.

(** A user without organizations. *)
Definition lonely : list (string * string * Response) :=
  [ ("GET", "/api/v2/users/janedoe",
      ok (js "{'id':'u1','name':'janedoe','organization_ids':[]}")) ].

(** Nobody is known: every request is answered 404 with an error object. *)
Definition not_found : list (string * string * Response) :=
  [ ("GET", "/api/v2/users/janedoe",
      {| StatusCode := 404; ResponseBody := js "{'message':'Resource not found'}" |}) ].

(** One organization, whose template base-image has an id with a double
    quote in it (written with an escape in the response). *)
Definition quoted : list (string * string * Response) :=
  [ ("GET", "/api/v2/users/janedoe",
      ok (js "{'id':'u1','name':'janedoe','organization_ids':['org0']}"));
    ("GET", "/api/v2/organizations/org0/templates",
      ok (js "[{'id':'t\'0','name':'base-image'}]")) ].

(** A Coder deployment that remembers whether workspace ws1 exists.  It
    serves the users and templates of [two_orgs], answers the probe for ws1
    with 200 or 404, creates ws1 on the first POST (201) and rejects a
    second one (409 Conflict).  The CLI deletes ws1 and fails when there is
    nothing to delete. *)
Definition coder : Environment :=
  {| Remote := bool;
     RoundTrip := fun present req =>
       if String.eqb (Method req) "POST" then
         if String.eqb (Path req) "/api/v2/organizations/org0/members/u1/workspaces" then
           if present : bool
           then (true, ({| StatusCode := 409; ResponseBody := "{}" |}, None))
           else (true, ({| StatusCode := 201; ResponseBody := "{}" |}, None))
         else (present, ({| StatusCode := 404; ResponseBody := "" |}, None))
       else if String.eqb (Path req) "/api/v2/users/me/workspace/ws1" then
         (present, (if present then ok "{}"
                    else {| StatusCode := 404; ResponseBody := "" |}, None))
       else (present, (route two_orgs (Method req) (Path req), None));
     Run := fun present _ => (false, if present : bool then ("", None) else cli_failure);
     Format := GetName |}.

(** The world after ws1 has been created once in an empty deployment. *)
Definition created : World coder :=
  snd (Create client (MWorkspace ws1) (start coder false)).

(** The remote service of [unavailable] with the failing CLI. *)
Definition down : Environment := stub unavailable cli_failure.

(** No connection at all: every round trip fails in transport, and resty
    hands back status 0 with an empty body. *)
Definition offline : Environment :=
  {| Remote := unit;
     RoundTrip := fun _ _ =>
       (tt, ({| StatusCode := 0; ResponseBody := "" |},
             Some (errors_New "dial tcp: connection refused")));
     Run := fun _ _ => (tt, cli_failure);
     Format := GetName |}.

(** A managed resource of the other kind. *)
Definition token1 : Token :=
  {| Token_ObjectMeta := {| Name := "tok" |};
     Token_ResourceSpec := {| ProviderConfigReference := None |};
     Token_ForProvider := {| ConfigurableField := "" |};
     Token_AtProvider := {| Token_ObservableField := "" |} |}.

(** Another desired state for the object ws1. *)
Definition ws1_other : Workspace := workspace "ws1" "john" "gpu-image" "org9".

(** The desired state of ws1 with the user name written without its dot. *)
Definition ws1_dotless : Workspace := workspace "ws1" "janedoe" "base-image" "org1".

(** A Workspace without a ProviderConfig reference. *)
Definition unreferenced : Workspace :=
  {| Workspace_ObjectMeta := {| Name := "ws1" |};
     Spec := {| Spec_ResourceSpec := {| ProviderConfigReference := None |};
                ForProvider := params "jane.doe" "base-image" "org1" |};
     Status := {| AtProvider := {| LatestStat := ""; ObservableField := "" |} |} |}.

(** The templates request is answered with an error object. *)
Definition forbidden : list (string * string * Response) :=
  [ ("GET", "/api/v2/users/janedoe", ok janedoe);
    ("GET", "/api/v2/organizations/org0/templates",
      {| StatusCode := 403; ResponseBody := js "{'message':'Forbidden'}" |}) ].


(** Two templates called base-image, the first of them without an id. *)
Definition blank_id : list (string * string * Response) :=
  [ ("GET", "/api/v2/users/janedoe", ok janedoe);
    ("GET", "/api/v2/organizations/org0/templates",
      ok (js "[{'id':'','name':'base-image'},{'id':'t9','name':'base-image'}]")) ].

End Fixture.

(* ================================================================= *)
(** ** Running the state monad *)

Ltac run :=
  unfold bind, ret, Printf, Println, Output, Get, Post, Execute; cbn [fst snd].

Lemma get_wire (c : external) (path : string) :
  (pCLI (service c)
   |> SetHostURL (coderurl (service c))
   |> R |> EnableTrace
   |> SetHeader "Accept" "application/json"
   |> SetHeader "Coder-Session-Token" (token (service c))
   |> wire "GET" path)
  = get_request c path.
Proof. reflexivity. Qed.

Lemma post_wire (c : external) (path body : string) :
  (pCLI (service c)
   |> SetHostURL (coderurl (service c))
   |> R |> EnableTrace
   |> SetHeader "Content-Type" "application/json"
   |> SetHeader "Accept" "application/json"
   |> SetHeader "Coder-Session-Token" (token (service c))
   |> SetBody body
   |> wire "POST" path)
  = post_request c path body.
Proof. reflexivity. Qed.

(* ================================================================= *)
(** ** Observe *)

(** What Observe does on a Workspace, for every environment and world: one
    GET, no error, and both flags say whether the status was 200. *)
Lemma Observe_Workspace (E : Environment) (c : external) (cr : Workspace) (w : World E) :
  Observe c (MWorkspace cr) w =
  let (rem, reply) := RoundTrip E (remote w) (observe_request c cr) in
  let found := (StatusCode (fst reply) =? 200)%Z in
  (({| ResourceExists := found; ResourceUpToDate := found;
       Observation_ConnectionDetails := [] |}, None),
   {| remote := rem;
      calls := calls w ++ [HTTP (observe_request c cr)];
      stdout := stdout w ++ ["Observing: " ++ Format E cr] |}).
Proof.
  unfold Observe. run. rewrite get_wire. fold (observe_request c cr).
  cbn [remote calls stdout].
  destruct (RoundTrip E (remote w) (observe_request c cr)) as [rem [resp e]].
  cbn [fst snd].
  destruct (StatusCode resp =? 200)%Z; reflexivity.
Qed.

(** C1, as amended.  When the remote service answers the GET of Observe with
    a 5xx status or with a transport error, Observe returns no error: the
    error of the round trip is dropped, the observation says "exists"
    exactly when the status is 200, and so a 5xx status is reported as a
    resource that does not exist. *)
Theorem Observe_transient_is_not_exists
    (E : Environment) (c : external) (cr : Workspace) (w : World E) :
  let reply := snd (RoundTrip E (remote w) (observe_request c cr)) in
  let result := fst (Observe c (MWorkspace cr) w) in
  transient reply ->
  snd result = None
  /\ ResourceExists (fst result) = (StatusCode (fst reply) =? 200)%Z
  /\ ((500 <= StatusCode (fst reply) < 600)%Z -> fst result = zero_ExternalObservation).
Proof.
  intros reply result _. subst reply result.
  rewrite Observe_Workspace.
  destruct (RoundTrip E (remote w) (observe_request c cr)) as [rem [resp e]].
  cbn [fst snd ResourceExists].
  repeat split.
  intros Hs. destruct (Z.eqb_spec (StatusCode resp) 200) as [Heq | _]; [lia | reflexivity].
Qed.

Lemma Observe_transient_is_not_exists_witness :
  transient (snd (RoundTrip Fixture.down tt (observe_request Fixture.client Fixture.ws2)))
  /\ fst (Observe Fixture.client (MWorkspace Fixture.ws2) (Fixture.start Fixture.down tt))
     = (zero_ExternalObservation, None).
Proof.
  assert (H : transient (snd (RoundTrip Fixture.down tt
                                (observe_request Fixture.client Fixture.ws2)))).
  { left. cbn. lia. }
  split; [exact H |].
  destruct (Observe_transient_is_not_exists Fixture.client Fixture.ws2
              (Fixture.start Fixture.down tt) H) as (Herr & _ & Hzero).
  apply injective_projections; cbn [fst snd].
  - apply Hzero. cbn. lia.
  - exact Herr.
Defined.

(** C1 fails on the code: the remote answers 503, and Observe returns a nil
    error together with an observation that says the resource does not
    exist; the same when the connection is refused. *)
Lemma Observe_503_reports_absent :
  StatusCode (fst (snd (RoundTrip Fixture.down tt
                          (observe_request Fixture.client Fixture.ws2)))) = 503%Z
  /\ fst (Observe Fixture.client (MWorkspace Fixture.ws2) (Fixture.start Fixture.down tt))
     = ({| ResourceExists := false; ResourceUpToDate := false;
           Observation_ConnectionDetails := [] |}, None)
  /\ snd (snd (RoundTrip Fixture.offline tt (observe_request Fixture.client Fixture.ws1)))
     = Some (errors_New "dial tcp: connection refused")
  /\ fst (Observe Fixture.client (MWorkspace Fixture.ws1) (Fixture.start Fixture.offline tt))
     = ({| ResourceExists := false; ResourceUpToDate := false;
           Observation_ConnectionDetails := [] |}, None).
Proof. repeat split. Qed.

(** C8.  Whenever Observe reports that the external resource exists, the
    managed resource is a Workspace whose GET returned status 200, and the
    observation says up to date, with empty connection details and no
    error: Observe never asks for an Update. *)
Theorem Observe_exists_is_up_to_date
    (E : Environment) (c : external) (mg : Managed) (w : World E) :
  let result := fst (Observe c mg w) in
  ResourceExists (fst result) = true ->
  ResourceUpToDate (fst result) = true
  /\ Observation_ConnectionDetails (fst result) = []
  /\ snd result = None
  /\ exists cr, mg = MWorkspace cr
       /\ StatusCode (fst (snd (RoundTrip E (remote w) (observe_request c cr)))) = 200%Z.
Proof.
  intros result. subst result. destruct mg as [cr | t].
  - rewrite Observe_Workspace.
    destruct (RoundTrip E (remote w) (observe_request c cr)) as [rem [resp e]] eqn:Hrt.
    cbn [fst snd ResourceExists ResourceUpToDate Observation_ConnectionDetails].
    intros Hex. repeat split; try assumption.
    exists cr. split; [reflexivity |]. rewrite Hrt. cbn [fst snd].
    now apply Z.eqb_eq.
  - cbn. discriminate.
Qed.

Lemma Observe_exists_is_up_to_date_witness :
  ResourceExists (fst (fst (Observe Fixture.client (MWorkspace Fixture.ws1)
                              (Fixture.start Fixture.down tt)))) = true
  /\ ResourceUpToDate (fst (fst (Observe Fixture.client (MWorkspace Fixture.ws1)
                                   (Fixture.start Fixture.down tt)))) = true.
Proof.
  split; [reflexivity |].
  apply (Observe_exists_is_up_to_date Fixture.client (MWorkspace Fixture.ws1)
           (Fixture.start Fixture.down tt)).
  reflexivity.
Defined.

(** Observe only reads: the one call it issues is a GET. *)
Lemma Observe_reads_only (E : Environment) (c : external) (mg : Managed) (w : World E) :
  exists new,
    calls (snd (Observe c mg w)) = (calls w ++ new)%list
    /\ Forall (fun call => exists req, call = HTTP req /\ Method req = "GET") new.
Proof.
  destruct mg as [cr | t].
  - rewrite Observe_Workspace.
    destruct (RoundTrip E (remote w) (observe_request c cr)) as [rem reply].
    exists [HTTP (observe_request c cr)]. split; [reflexivity |].
    constructor; [| constructor]. now eexists.
  - exists []. cbn. split; [now rewrite app_nil_r | constructor].
Qed.

(** Observe leaves a managed resource of another kind alone. *)
Lemma Observe_not_Workspace (E : Environment) (c : external) (t : Token) (w : World E) :
  Observe c (MToken t) w = ((zero_ExternalObservation, Some (errors_New errNotWorkspace)), w).
Proof. reflexivity. Qed.

(* ================================================================= *)
(** ** Update *)

(** C7.  For every Workspace, Update issues no call, leaves the remote
    service as it was, and returns empty connection details and no error;
    all it does is print one line. *)
Theorem Update_is_noop (E : Environment) (c : external) (cr : Workspace) (w : World E) :
  fst (Update c (MWorkspace cr) w) = ({| Update_ConnectionDetails := [] |}, None)
  /\ remote (snd (Update c (MWorkspace cr) w)) = remote w
  /\ calls (snd (Update c (MWorkspace cr) w)) = calls w
  /\ stdout (snd (Update c (MWorkspace cr) w))
     = (stdout w ++ [("Updating: " ++ Format E cr)%string])%list.
Proof. repeat split. Qed.

(** Update refuses a managed resource of another kind. *)
Lemma Update_not_Workspace (E : Environment) (c : external) (t : Token) (w : World E) :
  Update c (MToken t) w = ((zero_ExternalUpdate, Some (errors_New errNotWorkspace)), w).
Proof. reflexivity. Qed.

(* ================================================================= *)
(** ** Delete *)

(** Delete refuses a managed resource of another kind. *)
Lemma Delete_not_Workspace (E : Environment) (c : external) (t : Token) (w : World E) :
  Delete c (MToken t) w = (Some (errors_New errNotWorkspace), w).
Proof. reflexivity. Qed.

(** What Delete does on a Workspace: it runs the CLI once, prints the error
    if there is one, prints the output, and returns nil. *)
Lemma Delete_Workspace (E : Environment) (c : external) (cr : Workspace) (w : World E) :
  Delete c (MWorkspace cr) w =
  let (rem, o) := Run E (remote w) (delete_command c cr) in
  (None,
   {| remote := rem;
      calls := calls w ++ [Exec (delete_command c cr)];
      stdout := (stdout w ++ ["Deleting: " ++ Format E cr])
                ++ match snd o with
                   | Some e => ["could not run command:  " ++ Error e ++ newline]
                   | None => []
                   end
                ++ ["Output:  " ++ fst o ++ newline] |}).
Proof.
  unfold Delete. run. fold (username_of cr). fold (delete_command c cr).
  cbn [remote calls stdout].
  destruct (Run E (remote w) (delete_command c cr)) as [rem [out [e |]]];
    run; cbn [fst snd remote calls stdout String.concat String.append];
    rewrite <- ?app_assoc; reflexivity.
Qed.

(** C2, as amended.  Delete returns success for every Workspace and every
    outcome of the deletion: it is idempotent, and it stays silent towards
    its caller when the remote deletion fails; the failure shows only on
    standard output. *)
Theorem Delete_always_returns_nil
    (E : Environment) (c : external) (cr : Workspace) (w : World E) :
  let after := Delete c (MWorkspace cr) w in
  let o := snd (Run E (remote w) (delete_command c cr)) in
  fst after = None
  /\ fst (Delete c (MWorkspace cr) (snd after)) = None
  /\ calls (snd after) = (calls w ++ [Exec (delete_command c cr)])%list
  /\ forall e, snd o = Some e ->
       In ("could not run command:  " ++ Error e ++ newline) (stdout (snd after)).
Proof.
  intros after o. subst after o. rewrite !Delete_Workspace.
  destruct (Run E (remote w) (delete_command c cr)) as [rem [out err]].
  cbn [fst snd remote calls stdout].
  destruct (Run E rem (delete_command c cr)) as [rem' o'].
  cbn [fst snd]. repeat split.
  intros e ->. rewrite !in_app_iff. right. left. left. reflexivity.
Qed.

(** C2 fails on the code: the CLI reports a failure, the workspace is still
    there afterwards (Observe sees it), and Delete has returned nil. *)
Lemma Delete_swallows_failure :
  snd (snd (Run Fixture.down tt (delete_command Fixture.client Fixture.ws1)))
    = Some (errors_New "exit status 1")
  /\ fst (Delete Fixture.client (MWorkspace Fixture.ws1) (Fixture.start Fixture.down tt)) = None
  /\ ResourceExists
       (fst (fst (Observe Fixture.client (MWorkspace Fixture.ws1)
                    (snd (Delete Fixture.client (MWorkspace Fixture.ws1)
                            (Fixture.start Fixture.down tt)))))) = true.
Proof. repeat split. Qed.

(* ================================================================= *)
(** ** Connect *)

(** Connect refuses a managed resource of another kind. *)
Lemma Connect_not_Workspace (c : connector) (t : Token) :
  Connect c (MToken t) = Returns (Err (errors_New errNotWorkspace)).
Proof. reflexivity. Qed.

(** A failure to track the usage of the ProviderConfig ends Connect before
    anything is resolved. *)
Lemma Connect_track_failure (c : connector) (cr : Workspace) (err : error) :
  usage c (MWorkspace cr) = Some err ->
  Connect c (MWorkspace cr) = Returns (Err (errors_Wrap err errTrackPCUsage)).
Proof. intros H. unfold Connect. now rewrite H. Qed.

(** A Workspace without a reference that passes the tracker makes Connect
    dereference a nil pointer. *)
Lemma Connect_nil_reference (c : connector) (cr : Workspace) :
  usage c (MWorkspace cr) = None ->
  GetProviderConfigReference cr = None ->
  Connect c (MWorkspace cr) = Panics "invalid memory address or nil pointer dereference".
Proof. intros Ht Hr. unfold Connect. now rewrite Ht, Hr. Qed.

(** The constructor that Setup installs cannot fail. *)
Lemma newCoderService_bound (creds coderURL : string) :
  exists svc, newCoderService creds coderURL = Ok svc
    /\ token svc = creds /\ coderurl svc = coderURL /\ pCLI svc = resty_New.
Proof. eexists. repeat split. Qed.

(** What Connect does once the usage of the ProviderConfig of a Workspace
    with a reference has been tracked: the errors of the two resolution
    steps and of the constructor, and the client otherwise. *)
Lemma Connect_after_tracking (c : connector) (cr : Workspace) (ref : Reference) :
  usage c (MWorkspace cr) = None ->
  GetProviderConfigReference cr = Some ref ->
  let fetched := kube_Get (kube c) (Reference_Name ref) in
  let secret pc := extractor c (Source (Credentials pc)) (kube c) (Selectors (Credentials pc)) in
  ((exists e, Connect c (MWorkspace cr) = Returns (Err e) /\ CredentialResolutionError e)
   <-> ((exists err, fetched = Err err)
        \/ (exists pc err, fetched = Ok pc /\ secret pc = Err err)))
  /\ ((exists e, Connect c (MWorkspace cr) = Returns (Err e) /\ ClientConstructionError e)
      <-> (exists pc data err,
              fetched = Ok pc /\ secret pc = Ok data
              /\ newServiceFn c data (CoderUrl pc) = Err err))
  /\ (forall pc data svc,
         fetched = Ok pc -> secret pc = Ok data ->
         newServiceFn c data (CoderUrl pc) = Ok svc ->
         Connect c (MWorkspace cr) = Returns (Ok {| service := svc |}))
  /\ (newServiceFn c = newCoderService ->
      forall pc data,
        fetched = Ok pc -> secret pc = Ok data ->
        Connect c (MWorkspace cr)
        = Returns (Ok {| service := {| pCLI := resty_New; token := data;
                                       coderurl := CoderUrl pc |} |})).
Proof.
  intros Htrack Href fetched secret. subst fetched secret.
  unfold Connect. rewrite Htrack, Href.
  unfold CredentialResolutionError, ClientConstructionError,
    errGetPC, errGetCreds, errNewClient.
  destruct (kube_Get (kube c) (Reference_Name ref)) as [pc | e1].
  2:{ repeat split.
      - intros _. left. now exists e1.
      - intros _. exists (errors_Wrap e1 "cannot get ProviderConfig").
        split; [reflexivity | exists e1; now left].
      - intros (e & He & cause & Hc). subst e. discriminate.
      - intros (pc & data & err & Hf & _). discriminate.
      - intros pc data svc Hf. discriminate.
      - intros _ pc data Hf. discriminate. }
  destruct (extractor c (Source (Credentials pc)) (kube c) (Selectors (Credentials pc)))
    as [data | e2] eqn:Hsec.
  2:{ repeat split.
      - intros _. right. exists pc, e2. now split.
      - intros _. exists (errors_Wrap e2 "cannot get credentials").
        split; [reflexivity | exists e2; now right].
      - intros (e & He & cause & Hc). subst e. discriminate.
      - intros (pc' & data & err & Hf & Hs & _).
        injection Hf as <-. rewrite Hsec in Hs. discriminate.
      - intros pc' data svc Hf Hs. injection Hf as <-. rewrite Hsec in Hs. discriminate.
      - intros _ pc' data Hf Hs. injection Hf as <-. rewrite Hsec in Hs. discriminate. }
  destruct (newServiceFn c data (CoderUrl pc)) as [svc | e3] eqn:Hnew.
  - repeat split.
    + intros (e & He & _). discriminate.
    + intros [(err & Hf) | (pc' & err & Hf & Hs)]; [discriminate |].
      injection Hf as <-. rewrite Hsec in Hs. discriminate.
    + intros (e & He & _). discriminate.
    + intros (pc' & data' & err & Hf & Hs & Hn).
      injection Hf as <-. rewrite Hsec in Hs. injection Hs as <-.
      rewrite Hnew in Hn. discriminate.
    + intros pc' data' svc' Hf Hs Hn.
      injection Hf as <-. rewrite Hsec in Hs. injection Hs as <-.
      rewrite Hnew in Hn. now injection Hn as <-.
    + intros Hctor pc' data' Hf Hs.
      injection Hf as <-. rewrite Hsec in Hs. injection Hs as <-.
      rewrite Hctor in Hnew. unfold newCoderService in Hnew. now injection Hnew as <-.
  - repeat split.
    + intros (e & He & cause & [Hc | Hc]); subst e; discriminate.
    + intros [(err & Hf) | (pc' & err & Hf & Hs)]; [discriminate |].
      injection Hf as <-. rewrite Hsec in Hs. discriminate.
    + intros _. exists pc, data, e3. now repeat split.
    + intros _. exists (errors_Wrap e3 "cannot create new Service").
      split; [reflexivity | now exists e3].
    + intros pc' data' svc' Hf Hs Hn.
      injection Hf as <-. rewrite Hsec in Hs. injection Hs as <-.
      rewrite Hnew in Hn. discriminate.
    + intros Hctor. rewrite Hctor in Hnew. discriminate.
Qed.

(** C6, as amended.  Connect on a Workspace tracks the usage of the
    ProviderConfig first, and when the tracker fails it returns that failure
    as "cannot track ProviderConfig usage", whatever the state of the
    ProviderConfig and of its secret.  Once the usage of a Workspace with a
    reference has been tracked, Connect fails with a credential resolution
    error exactly when the referenced ProviderConfig cannot be fetched or
    its credentials cannot be read; it fails with a client construction
    error exactly when both were resolved and the constructor fails; and
    when the constructor succeeds it returns the client the constructor
    built from the resolved credentials and URL, which for
    [newCoderService] always happens and gives a client bound to that token
    and that endpoint. *)
Theorem Connect_errors (c : connector) (cr : Workspace) :
  (forall err,
      usage c (MWorkspace cr) = Some err ->
      Connect c (MWorkspace cr) = Returns (Err (errors_Wrap err errTrackPCUsage))
      /\ ~ CredentialResolutionError (errors_Wrap err errTrackPCUsage)
      /\ ~ ClientConstructionError (errors_Wrap err errTrackPCUsage))
  /\ (forall ref,
      usage c (MWorkspace cr) = None ->
      GetProviderConfigReference cr = Some ref ->
      let fetched := kube_Get (kube c) (Reference_Name ref) in
      let secret pc :=
        extractor c (Source (Credentials pc)) (kube c) (Selectors (Credentials pc)) in
      ((exists e, Connect c (MWorkspace cr) = Returns (Err e) /\ CredentialResolutionError e)
       <-> ((exists err, fetched = Err err)
            \/ (exists pc err, fetched = Ok pc /\ secret pc = Err err)))
      /\ ((exists e, Connect c (MWorkspace cr) = Returns (Err e) /\ ClientConstructionError e)
          <-> (exists pc data err,
                  fetched = Ok pc /\ secret pc = Ok data
                  /\ newServiceFn c data (CoderUrl pc) = Err err))
      /\ (forall pc data svc,
             fetched = Ok pc -> secret pc = Ok data ->
             newServiceFn c data (CoderUrl pc) = Ok svc ->
             Connect c (MWorkspace cr) = Returns (Ok {| service := svc |}))
      /\ (newServiceFn c = newCoderService ->
          forall pc data,
            fetched = Ok pc -> secret pc = Ok data ->
            Connect c (MWorkspace cr)
            = Returns (Ok {| service := {| pCLI := resty_New; token := data;
                                           coderurl := CoderUrl pc |} |}))).
Proof.
  split.
  - intros err Herr. split; [now apply Connect_track_failure |].
    unfold CredentialResolutionError, ClientConstructionError,
      errTrackPCUsage, errGetPC, errGetCreds, errNewClient.
    split.
    + intros (cause & [H | H]); discriminate.
    + intros (cause & H); discriminate.
  - intros ref Htrack Href. exact (Connect_after_tracking c cr Htrack Href).
Qed.

Lemma Connect_errors_witness :
  usage Fixture.installed (MWorkspace Fixture.ws1) = None
  /\ GetProviderConfigReference Fixture.ws1 = Some {| Reference_Name := "default" |}
  /\ Connect Fixture.installed (MWorkspace Fixture.ws1)
     = Returns (Ok {| service := {| pCLI := resty_New; token := "secret";
                                    coderurl := "https://coder.example/" |} |})
  /\ usage Fixture.flaky (MWorkspace Fixture.ws1)
     = Some (errors_New "cannot apply ProviderConfigUsage")
  /\ Connect Fixture.flaky (MWorkspace Fixture.ws1)
     = Returns (Err (errors_Wrap (errors_New "cannot apply ProviderConfigUsage")
                       errTrackPCUsage)).
Proof.
  split; [reflexivity |]. split; [reflexivity |]. split.
  - destruct (Connect_errors Fixture.installed Fixture.ws1) as (_ & Hresolved).
    destruct (Hresolved {| Reference_Name := "default" |} eq_refl eq_refl)
      as (_ & _ & _ & Hbound).
    exact (Hbound eq_refl Fixture.provider_config "secret" eq_refl eq_refl).
  - split; [reflexivity |].
    exact (proj1 (proj1 (Connect_errors Fixture.flaky Fixture.ws1) _ eq_refl)).
Defined.

(** C6 fails on the code.  A Workspace without a ProviderConfig reference
    is turned away by the tracker, and Connect returns "cannot track
    ProviderConfig usage": the reference is missing and the error is not
    one of credential resolution.  And where the reference, the
    ProviderConfig and its secret are all in place but the usage cannot be
    recorded, Connect fails with that same error: whichever class the
    tracking error is counted in, "exactly when" fails in one of the two
    cases. *)
Lemma Connect_tracking_comes_first :
  GetProviderConfigReference Fixture.unreferenced = None
  /\ Connect Fixture.installed (MWorkspace Fixture.unreferenced)
     = Returns (Err (errors_Wrap
                       (errors_New "managed resource does not reference a ProviderConfig")
                       errTrackPCUsage))
  /\ GetProviderConfigReference Fixture.ws1 = Some {| Reference_Name := "default" |}
  /\ kube_Get (kube Fixture.flaky) "default" = Ok Fixture.provider_config
  /\ extractor Fixture.flaky (Source (Credentials Fixture.provider_config))
       (kube Fixture.flaky) (Selectors (Credentials Fixture.provider_config))
     = Ok "secret"
  /\ newServiceFn Fixture.flaky "secret" (CoderUrl Fixture.provider_config)
     = Ok {| pCLI := resty_New; token := "secret"; coderurl := "https://coder.example/" |}
  /\ Connect Fixture.flaky (MWorkspace Fixture.ws1)
     = Returns (Err (errors_Wrap (errors_New "cannot apply ProviderConfigUsage")
                       errTrackPCUsage)).
Proof. repeat split. Qed.

(* ================================================================= *)
(** ** The text of the creation request *)

Lemma length_append (a b : string) :
  String.length (a ++ b) = String.length a + String.length b.
Proof. induction a as [| c a IH]; cbn; [reflexivity | now rewrite IH]. Qed.

Lemma specials_append (a b : string) : specials (a ++ b) = specials a + specials b.
Proof. induction a as [| c a IH]; cbn; [reflexivity | rewrite IH; lia]. Qed.

Lemma weight_append (a b : string) : weight (a ++ b) = weight a + weight b.
Proof. unfold weight. rewrite length_append, specials_append. lia. Qed.

Lemma weight_String (c : ascii) (s : string) :
  weight (String c s) = (if special c then 2 else 1) + weight s.
Proof. unfold weight. cbn. destruct (special c); lia. Qed.

Lemma specials_le_length (s : string) : specials s <= String.length s.
Proof. induction s as [| c s IH]; cbn; [lia | destruct (special c); lia]. Qed.

Lemma contains_dquote_special (s : string) : contains dquote s = true -> 0 < specials s.
Proof.
  induction s as [| c s IH]; cbn; [discriminate |].
  unfold special. destruct (Ascii.eqb c dquote); cbn; [lia |].
  intros H. specialize (IH H). lia.
Qed.

Lemma skip_ws_length (s : string) : String.length (JSON.skip_ws s) <= String.length s.
Proof.
  induction s as [| c s IH]; cbn; [lia |].
  destruct (JSON.is_ws c); cbn; lia.
Qed.

(** A continuation byte of UTF-8 is not special. *)
Lemma continuation_not_special (x : N) : special (JSON.byte (128 + x mod 64)) = false.
Proof.
  assert (Hlt : (x mod 64 < 64)%N) by (apply N.mod_lt; discriminate).
  set (m := (x mod 64)%N) in *. clearbody m.
  unfold JSON.byte. rewrite N.mod_small by lia.
  unfold special.
  assert (Hn : N_of_ascii (ascii_of_N (128 + m)) = (128 + m)%N)
    by (apply N_ascii_embedding; lia).
  destruct (Ascii.eqb_spec (ascii_of_N (128 + m)) dquote) as [Heq | _].
  { rewrite Heq in Hn. change (N_of_ascii dquote) with 34%N in Hn. lia. }
  destruct (Ascii.eqb_spec (ascii_of_N (128 + m)) backslash) as [Heq | _].
  { rewrite Heq in Hn. change (N_of_ascii backslash) with 92%N in Hn. lia. }
  rewrite Hn. cbn [orb]. apply N.ltb_ge. lia.
Qed.

Lemma utf8_weight (cp : N) : weight (JSON.utf8 cp) <= 6.
Proof.
  unfold JSON.utf8.
  destruct (cp <? 128)%N; [| destruct (cp <? 2048)%N; [| destruct (cp <? 65536)%N]];
    rewrite ?weight_String, ?continuation_not_special;
    change (weight "") with 0;
    repeat match goal with |- context [special ?c] => destruct (special c) end; lia.
Qed.

Lemma lone_weight (cp : N) : weight (JSON.lone cp) <= 6.
Proof. unfold JSON.lone. destruct (_ || _); apply utf8_weight. Qed.

(** The decoded text of a literal weighs no more than its items cost. *)
Lemma decode_items_weight (l : list JSON.item) :
  weight (JSON.decode_items l) <= items_cost l.
Proof.
  assert (H : forall n l, length l <= n -> weight (JSON.decode_items l) <= items_cost l).
  { clear l. induction n as [| n IH]; intros l Hn.
    - destruct l; [cbn; lia | cbn in Hn; lia].
    - destruct l as [| [c | hi] r]; [cbn; lia | |].
      + cbn [JSON.decode_items items_cost item_cost]. rewrite weight_String.
        cbn in Hn. specialize (IH r). lia.
      + cbn in Hn. cbn [JSON.decode_items items_cost item_cost].
        pose proof (lone_weight hi) as Hl.
        pose proof (IH r ltac:(lia)) as Hr.
        destruct r as [| [c | lo] r'].
        * rewrite weight_append. lia.
        * rewrite weight_append. lia.
        * destruct (JSON.is_high_surrogate hi && JSON.is_low_surrogate lo).
          -- rewrite weight_append.
             pose proof (utf8_weight (65536 + (hi - 55296) * 1024 + (lo - 56320))) as Hp.
             pose proof (IH r' ltac:(cbn in Hn; lia)) as Hr'.
             cbn [items_cost item_cost]. lia.
          -- rewrite weight_append. lia. }
  apply (H (length l)). lia.
Qed.

(** Reading a literal uses up at least the cost of its items, and the
    closing quote. *)
Lemma string_items_length (s : string) :
  forall l rest,
    JSON.string_items s = Some (l, rest) ->
    items_cost l + 1 + String.length rest <= String.length s.
Proof.
  assert (H : forall n s, String.length s <= n ->
                forall l rest, JSON.string_items s = Some (l, rest) ->
                  items_cost l + 1 + String.length rest <= String.length s).
  { clear s. induction n as [| n IH]; intros s Hn l rest.
    - destruct s; [cbn; discriminate | cbn in Hn; lia].
    - destruct s as [| c r]; [cbn; discriminate |].
      cbn [JSON.string_items]. cbn in Hn.
      destruct (Ascii.eqb_spec c dquote) as [-> | Hq].
      { intros [= <- <-]. cbn. lia. }
      destruct (Ascii.eqb_spec c backslash) as [-> | Hb].
      { destruct r as [| e r1]; [discriminate |].
        destruct (Ascii.eqb e "u").
        - destruct r1 as [| h1 [| h2 [| h3 [| h4 r2]]]]; try discriminate.
          destruct (JSON.hex4 h1 h2 h3 h4); [| discriminate].
          destruct (JSON.string_items r2) as [[t rest'] |] eqn:Hr2; [| discriminate].
          intros [= <- <-]. cbn in Hn.
          pose proof (IH r2 ltac:(lia) _ _ Hr2). cbn. lia.
        - destruct (JSON.unescape e); [| discriminate].
          destruct (JSON.string_items r1) as [[t rest'] |] eqn:Hr1; [| discriminate].
          intros [= <- <-]. cbn in Hn.
          pose proof (IH r1 ltac:(lia) _ _ Hr1).
          cbn [items_cost item_cost String.length]. destruct (special a); lia. }
      destruct (N_of_ascii c <? 32)%N eqn:Hctl; [discriminate |].
      destruct (JSON.string_items r) as [[t rest'] |] eqn:Hr; [| discriminate].
      intros [= <- <-].
      pose proof (IH r ltac:(lia) _ _ Hr).
      cbn [items_cost item_cost String.length].
      replace (special c) with false; [lia |].
      unfold special. rewrite Hctl.
      destruct (Ascii.eqb_spec c dquote); [contradiction |].
      destruct (Ascii.eqb_spec c backslash); [contradiction | reflexivity]. }
  apply (H (String.length s)). lia.
Qed.

Lemma string_body_length (s t rest : string) :
  JSON.string_body s = Some (t, rest) ->
  weight t + 1 + String.length rest <= String.length s.
Proof.
  unfold JSON.string_body.
  destruct (JSON.string_items s) as [[l rest'] |] eqn:Hs; [| discriminate].
  intros [= <- <-].
  pose proof (string_items_length _ Hs). pose proof (decode_items_weight l). lia.
Qed.

Lemma skip_ws_eq_length (s r : string) :
  JSON.skip_ws s = r -> String.length r <= String.length s.
Proof. intros <-. apply skip_ws_length. Qed.

Lemma number_span_length (s lit rest : string) :
  JSON.number_span s = (lit, rest) -> String.length rest <= String.length s.
Proof.
  revert lit rest. induction s as [| c s IH]; cbn; intros lit rest.
  - intros [= <- <-]. cbn. lia.
  - destruct (JSON.is_number_char c).
    + destruct (JSON.number_span s) as [lit' rest'].
      intros [= <- <-]. specialize (IH _ _ eq_refl). lia.
    + intros [= <- <-]. cbn. lia.
Qed.

Lemma strip_prefix_length (p s rest : string) :
  JSON.strip_prefix p s = Some rest -> String.length rest <= String.length s.
Proof.
  revert s. induction p as [| a p IH]; intros [| b s]; cbn; try discriminate.
  - intros [= <-]. cbn. lia.
  - intros [= <-]. cbn. lia.
  - destruct (Ascii.eqb a b); [| discriminate].
    intros H. specialize (IH _ H). lia.
Qed.

Lemma keyword_length (word : string) (v v' : JSON.value) (s rest : string) :
  JSON.keyword word v s = Some (v', rest) ->
  v' = v /\ String.length rest <= String.length s.
Proof.
  unfold JSON.keyword. destruct (JSON.strip_prefix word s) as [r |] eqn:H; [| discriminate].
  intros [= <- <-]. split; [reflexivity | now apply strip_prefix_length with word].
Qed.

Lemma value_size_Object (ms : list (string * JSON.value)) :
  value_size (JSON.Object ms) = 1 + members_size ms.
Proof.
  destruct ms; reflexivity.
Qed.

(** Turns what is known about the pieces of a text into facts about their
    lengths. *)
Ltac to_lengths :=
  repeat match goal with
    | H : JSON.skip_ws _ = _ |- _ => apply skip_ws_eq_length in H; cbn [String.length] in H
    | H : JSON.string_body _ = Some _ |- _ => apply string_body_length in H
    | H : JSON.number_span _ = _ |- _ =>
        apply number_span_length in H; cbn [String.length] in H
    | H : JSON.keyword _ _ _ = Some _ |- _ =>
        apply keyword_length in H; destruct H as [-> H]
    end.

(** A text is at least as long as the size of the value read from it and
    what is left over. *)
Lemma parse_length (fuel : nat) :
  (forall s v rest,
      JSON.parse_value fuel s = Some (v, rest) ->
      value_size v + String.length rest <= String.length s)
  /\ (forall s vs rest,
         JSON.parse_elements fuel s = Some (vs, rest) ->
         String.length rest <= String.length s)
  /\ (forall s ms rest,
         JSON.parse_members fuel s = Some (ms, rest) ->
         members_size ms + String.length rest <= String.length s).
Proof.
  induction fuel as [| f (IHv & IHe & IHm)].
  { repeat split; intros; discriminate. }
  split; [| split].
  - intros s v rest. cbn [JSON.parse_value].
    destruct (JSON.skip_ws s) as [| c r] eqn:Hs; [discriminate |].
    destruct (Ascii.eqb c "{").
    { destruct (JSON.skip_ws r) as [| d r'] eqn:Hr; [discriminate |].
      destruct (Ascii.eqb d "}").
      - intros [= <- <-]. to_lengths. cbn. lia.
      - destruct (JSON.parse_members f (String d r')) as [[ms rest'] |] eqn:Hm;
          [| discriminate].
        intros [= <- <-]. apply IHm in Hm. cbn [String.length] in Hm.
        rewrite value_size_Object. to_lengths. lia. }
    destruct (Ascii.eqb c "[").
    { destruct (JSON.skip_ws r) as [| d r'] eqn:Hr; [discriminate |].
      destruct (Ascii.eqb d "]").
      - intros [= <- <-]. to_lengths. cbn. lia.
      - destruct (JSON.parse_elements f (String d r')) as [[vs rest'] |] eqn:He;
          [| discriminate].
        intros [= <- <-]. apply IHe in He. cbn [String.length] in He.
        to_lengths. cbn. lia. }
    destruct (Ascii.eqb c dquote).
    { destruct (JSON.string_body r) as [[t rest'] |] eqn:Ht; [| discriminate].
      intros [= <- <-]. to_lengths. cbn [value_size]. lia. }
    destruct (Ascii.eqb c "t"); [intros H; to_lengths; cbn; lia |].
    destruct (Ascii.eqb c "f"); [intros H; to_lengths; cbn; lia |].
    destruct (Ascii.eqb c "n"); [intros H; to_lengths; cbn; lia |].
    destruct (JSON.number_span (String c r)) as [lit rest'] eqn:Hn.
    destruct (JSON.number_run JSON.NStart lit); [| discriminate].
    intros [= <- <-]. to_lengths. cbn. lia.
  - intros s vs rest. cbn [JSON.parse_elements].
    destruct (JSON.parse_value f s) as [[v r] |] eqn:Hv; [| discriminate].
    apply IHv in Hv.
    destruct (JSON.skip_ws r) as [| d r'] eqn:Hr; [discriminate |].
    destruct (Ascii.eqb d ",").
    + destruct (JSON.parse_elements f r') as [[vs' rest'] |] eqn:He; [| discriminate].
      intros [= <- <-]. apply IHe in He. to_lengths. lia.
    + destruct (Ascii.eqb d "]"); [| discriminate].
      intros [= <- <-]. to_lengths. lia.
  - intros s ms rest. cbn [JSON.parse_members].
    destruct (JSON.skip_ws s) as [| q r] eqn:Hs; [discriminate |].
    destruct (Ascii.eqb q dquote); [| discriminate].
    destruct (JSON.string_body r) as [[k r1] |] eqn:Hk; [| discriminate].
    destruct (JSON.skip_ws r1) as [| colon r2] eqn:Hr1; [discriminate |].
    destruct (Ascii.eqb colon ":"); [| discriminate].
    destruct (JSON.parse_value f r2) as [[v r3] |] eqn:Hv; [| discriminate].
    apply IHv in Hv.
    destruct (JSON.skip_ws r3) as [| d r4] eqn:Hr3; [discriminate |].
    destruct (Ascii.eqb d ",").
    + destruct (JSON.parse_members f r4) as [[ms' rest'] |] eqn:Hm; [| discriminate].
      intros [= <- <-]. apply IHm in Hm. to_lengths. cbn [members_size]. lia.
    + destruct (Ascii.eqb d "}"); [| discriminate].
      intros [= <- <-]. to_lengths. cbn [members_size]. lia.
Qed.

Lemma reads_size (s : string) (v : JSON.value) :
  JSON.reads s v -> value_size v <= String.length s.
Proof.
  intros (fuel & rest & Hv & _). apply (proj1 (parse_length fuel)) in Hv. lia.
Qed.

Lemma parse_reads (s : string) (v : JSON.value) : JSON.parse s = Some v -> JSON.reads s v.
Proof.
  unfold JSON.parse.
  destruct (JSON.parse_value (S (String.length s)) s) as [[v' rest] |] eqn:Hv; [| discriminate].
  destruct (JSON.skip_ws rest) eqn:Hrest; [| discriminate].
  intros [= <-]. now exists (S (String.length s)), rest.
Qed.

(** Fuel beyond the number of characters read changes nothing. *)
Lemma parse_fuel (f : nat) :
  (forall s v rest,
      JSON.parse_value f s = Some (v, rest) ->
      forall f', String.length s - String.length rest < f' ->
                 JSON.parse_value f' s = Some (v, rest))
  /\ (forall s vs rest,
         JSON.parse_elements f s = Some (vs, rest) ->
         forall f', String.length s - String.length rest < f' ->
                    JSON.parse_elements f' s = Some (vs, rest))
  /\ (forall s ms rest,
         JSON.parse_members f s = Some (ms, rest) ->
         forall f', String.length s - String.length rest < f' ->
                    JSON.parse_members f' s = Some (ms, rest)).
Proof.
  induction f as [| f (IHv & IHe & IHm)].
  { repeat split; intros; discriminate. }
  destruct (parse_length f) as (Lv & Le & Lm).
  split; [| split].
  - intros s v rest H [| f'] Hf; [lia |]. revert H. cbn [JSON.parse_value].
    destruct (JSON.skip_ws s) as [| c r] eqn:Hs; [discriminate |].
    apply skip_ws_eq_length in Hs. cbn [String.length] in Hs.
    destruct (Ascii.eqb c "{").
    { destruct (JSON.skip_ws r) as [| d r'] eqn:Hr; [discriminate |].
      apply skip_ws_eq_length in Hr.
      destruct (Ascii.eqb d "}"); [trivial |].
      destruct (JSON.parse_members f (String d r')) as [[ms rest'] |] eqn:Hm;
        [| discriminate].
      intros [= <- <-]. pose proof (Lm _ _ _ Hm).
      rewrite (IHm _ _ _ Hm f'); [reflexivity | lia]. }
    destruct (Ascii.eqb c "[").
    { destruct (JSON.skip_ws r) as [| d r'] eqn:Hr; [discriminate |].
      apply skip_ws_eq_length in Hr.
      destruct (Ascii.eqb d "]"); [trivial |].
      destruct (JSON.parse_elements f (String d r')) as [[vs rest'] |] eqn:He;
        [| discriminate].
      intros [= <- <-]. pose proof (Le _ _ _ He).
      rewrite (IHe _ _ _ He f'); [reflexivity | lia]. }
    trivial.
  - intros s vs rest H [| f'] Hf; [lia |]. revert H. cbn [JSON.parse_elements].
    destruct (JSON.parse_value f s) as [[v r] |] eqn:Hv; [| discriminate].
    pose proof (Lv _ _ _ Hv).
    destruct (JSON.skip_ws r) as [| d r'] eqn:Hr; [discriminate |].
    pose proof (skip_ws_eq_length _ Hr) as Lr. cbn [String.length] in Lr.
    destruct (Ascii.eqb d ",") eqn:Hd.
    + destruct (JSON.parse_elements f r') as [[vs' rest'] |] eqn:He; [| discriminate].
      intros [= <- <-]. pose proof (Le _ _ _ He).
      rewrite (IHv _ _ _ Hv f') by lia. rewrite Hr, Hd.
      rewrite (IHe _ _ _ He f') by lia. reflexivity.
    + destruct (Ascii.eqb d "]") eqn:Hd'; [| discriminate].
      intros [= <- <-].
      rewrite (IHv _ _ _ Hv f') by lia. rewrite Hr, Hd, Hd'. reflexivity.
  - intros s ms rest H [| f'] Hf; [lia |]. revert H. cbn [JSON.parse_members].
    destruct (JSON.skip_ws s) as [| q r] eqn:Hs; [discriminate |].
    apply skip_ws_eq_length in Hs. cbn [String.length] in Hs.
    destruct (Ascii.eqb q dquote); [| discriminate].
    destruct (JSON.string_body r) as [[k r1] |] eqn:Hk; [| discriminate].
    apply string_body_length in Hk.
    destruct (JSON.skip_ws r1) as [| colon r2] eqn:Hr1; [discriminate |].
    apply skip_ws_eq_length in Hr1. cbn [String.length] in Hr1.
    destruct (Ascii.eqb colon ":"); [| discriminate].
    destruct (JSON.parse_value f r2) as [[v r3] |] eqn:Hv; [| discriminate].
    pose proof (Lv _ _ _ Hv).
    destruct (JSON.skip_ws r3) as [| d r4] eqn:Hr3; [discriminate |].
    pose proof (skip_ws_eq_length _ Hr3) as Lr3. cbn [String.length] in Lr3.
    destruct (Ascii.eqb d ",") eqn:Hd.
    + destruct (JSON.parse_members f r4) as [[ms' rest'] |] eqn:Hm; [| discriminate].
      intros [= <- <-]. pose proof (Lm _ _ _ Hm).
      rewrite (IHv _ _ _ Hv f') by lia. rewrite Hr3, Hd.
      rewrite (IHm _ _ _ Hm f') by lia. reflexivity.
    + destruct (Ascii.eqb d "}") eqn:Hd'; [| discriminate].
      intros [= <- <-].
      rewrite (IHv _ _ _ Hv f') by lia. rewrite Hr3, Hd, Hd'. reflexivity.
Qed.

(** So [JSON.parse] finds a value whenever some amount of fuel does. *)
Lemma reads_parse (s : string) (v : JSON.value) : JSON.reads s v <-> JSON.parse s = Some v.
Proof.
  split; [| apply parse_reads].
  intros (fuel & rest & Hv & Hrest). unfold JSON.parse.
  rewrite (proj1 (parse_fuel fuel) _ _ _ Hv (S (String.length s))) by lia.
  now rewrite Hrest.
Qed.

Lemma createBody_length (templateID objectName : string) :
  String.length (createBody templateID objectName)
  = 28 + String.length templateID + String.length objectName.
Proof.
  unfold createBody. rewrite !length_append.
  change (String.length body_open) with 16.
  change (String.length body_middle) with 10.
  change (String.length body_close) with 2. lia.
Qed.

(** If the body reads back as the object it is meant to encode, neither the
    template id nor the object name holds a special character. *)
Lemma createBody_valid_plain (templateID objectName : string) :
  JSON.reads (createBody templateID objectName) (body_object templateID objectName) ->
  specials templateID = 0 /\ specials objectName = 0.
Proof.
  intros H. apply reads_size in H. rewrite createBody_length in H.
  unfold body_object in H. rewrite value_size_Object in H.
  cbn [members_size value_size] in H.
  change (weight "template_id") with 11 in H. change (weight "name") with 4 in H.
  unfold weight in H. lia.
Qed.

(** A text without special characters is its own literal. *)
Lemma string_body_plain (s rest : string) :
  specials s = 0 -> JSON.string_body (s ++ String dquote rest) = Some (s, rest).
Proof.
  unfold JSON.string_body. intros Hs.
  assert (H : JSON.string_items (s ++ String dquote rest)
              = Some (map JSON.Byte (list_ascii_of_string s), rest)
              /\ JSON.decode_items (map JSON.Byte (list_ascii_of_string s)) = s).
  { induction s as [| c s IH].
    - split; reflexivity.
    - cbn [specials] in Hs.
      destruct (special c) eqn:Hc; [cbn in Hs; lia |].
      destruct (IH Hs) as [IH1 IH2].
      unfold special in Hc.
      apply orb_false_iff in Hc. destruct Hc as [Hc Hctl].
      apply orb_false_iff in Hc. destruct Hc as [Hq Hb].
      cbn [String.append JSON.string_items list_ascii_of_string map JSON.decode_items].
      rewrite Hq, Hb, Hctl, IH1, IH2. split; reflexivity. }
  destruct H as [-> ->]. reflexivity.
Qed.

(** The steps of the reader on a text without white space. *)
Lemma parse_value_string (f : nat) (s t rest : string) :
  JSON.string_body s = Some (t, rest) ->
  JSON.parse_value (S f) (String dquote s) = Some (JSON.Str t, rest).
Proof. intros H. cbn -[JSON.string_body]. now rewrite H. Qed.

Lemma parse_value_object (f : nat) (s : string) (ms : list (string * JSON.value))
    (rest : string) :
  JSON.parse_members f (String dquote s) = Some (ms, rest) ->
  JSON.parse_value (S f) (String "{" (String dquote s)) = Some (JSON.Object ms, rest).
Proof. intros H. cbn -[JSON.string_body]. now rewrite H. Qed.

Lemma parse_members_more (f : nat) (s k r2 r4 rest : string) (v : JSON.value)
    (ms : list (string * JSON.value)) :
  JSON.string_body s = Some (k, String ":" r2) ->
  JSON.parse_value f r2 = Some (v, String "," r4) ->
  JSON.parse_members f r4 = Some (ms, rest) ->
  JSON.parse_members (S f) (String dquote s) = Some ((k, v) :: ms, rest).
Proof.
  intros Hk Hv Hm. cbn -[JSON.string_body]. rewrite Hk.
  cbn -[JSON.string_body]. rewrite Hv. cbn -[JSON.string_body]. now rewrite Hm.
Qed.

Lemma parse_members_last (f : nat) (s k r2 rest : string) (v : JSON.value) :
  JSON.string_body s = Some (k, String ":" r2) ->
  JSON.parse_value f r2 = Some (v, String "}" rest) ->
  JSON.parse_members (S f) (String dquote s) = Some ([(k, v)], rest).
Proof.
  intros Hk Hv. cbn -[JSON.string_body]. rewrite Hk.
  cbn -[JSON.string_body]. now rewrite Hv.
Qed.

(** The body of the creation request reads back as the intended object when
    neither text holds a special character. *)
Lemma createBody_plain_valid (templateID objectName : string) :
  specials templateID = 0 -> specials objectName = 0 ->
  JSON.parse (createBody templateID objectName) = Some (body_object templateID objectName).
Proof.
  intros Ht Hn. unfold JSON.parse. rewrite createBody_length.
  replace (S (28 + String.length templateID + String.length objectName))
    with (S (S (S (S (25 + String.length templateID + String.length objectName)))))
    by lia.
  set (f := 25 + String.length templateID + String.length objectName).
  assert (H : JSON.parse_value (S (S (S (S f)))) (createBody templateID objectName)
              = Some (body_object templateID objectName, "")).
  { unfold createBody, body_open, body_middle, body_close.
    cbn [String.append].
    apply parse_value_object.
    eapply parse_members_more.
    - reflexivity.
    - apply parse_value_string. apply string_body_plain. exact Ht.
    - eapply parse_members_last.
      + reflexivity.
      + apply parse_value_string. apply string_body_plain. exact Hn. }
  rewrite H. reflexivity.
Qed.

(** A double quote in either text keeps the body from reading back as the
    intended object. *)
Lemma createBody_quote_invalid (templateID objectName : string) :
  contains dquote templateID = true \/ contains dquote objectName = true ->
  ~ JSON.reads (createBody templateID objectName) (body_object templateID objectName).
Proof.
  intros Hq Hvalid. apply createBody_valid_plain in Hvalid. destruct Hvalid as [Ht Hn].
  destruct Hq as [Hq | Hq]; apply contains_dquote_special in Hq; lia.
Qed.

(** Two bodies with a quote in the object name: the first is no JSON text
    at all, the second is the text of an object with three members. *)
Lemma createBody_quote_examples :
  JSON.parse (createBody "t0" (js "a'b")) = None
  /\ JSON.parse (createBody "t0" (js "x','name':'y"))
     = Some (JSON.Object [("template_id", JSON.Str "t0");
                          ("name", JSON.Str "x"); ("name", JSON.Str "y")]).
Proof. split; vm_compute; reflexivity. Qed.

(* ================================================================= *)
(** ** Create *)






(** Runs Create up to the decoding of the user. *)
Ltac create_start c cr Huser resp1 e1 Hrt1 Hu :=
  destruct Huser as (resp1 & e1 & Hrt1 & Hu);
  unfold Create; run; rewrite get_wire; fold (username_of cr); fold (user_request c cr);
  cbn [remote calls stdout]; rewrite Hrt1; cbn [fst snd]; rewrite Hu;
  run; cbn [remote calls stdout].

(** Create refuses a managed resource of another kind. *)
Lemma Create_not_Workspace (E : Environment) (c : external) (t : Token) (w : World E) :
  Create c (MToken t) w
  = (Returns (zero_ExternalCreation, Some (errors_New errNotWorkspace)), w).
Proof. reflexivity. Qed.

(** Create when the user cannot be decoded: the templates are not asked
    for. *)
Lemma Create_user_undecodable
    (E : Environment) (c : external) (cr : Workspace) (w : World E)
    (r1 : Remote E) (resp : Response) (err : option error) (e : error) :
  RoundTrip E (remote w) (user_request c cr) = (r1, (resp, err)) ->
  Unmarshal_user (ResponseBody resp) = Err e ->
  Create c (MWorkspace cr) w =
  (Returns (zero_ExternalCreation, Some (fmt_Errorf_w "failed to decode user response: " e)),
   {| remote := r1;
      calls := calls w ++ [HTTP (user_request c cr)];
      stdout := stdout w ++ ["Creating: %!v(MISSING)"; "get User"] |}).
Proof.
  intros Hrt Hu.
  unfold Create; run; rewrite get_wire; fold (username_of cr); fold (user_request c cr).
  cbn [remote calls stdout]. rewrite Hrt. cbn [fst snd]. rewrite Hu.
  rewrite <- app_assoc. reflexivity.
Qed.

(** Create when the user has no organization: the index expression
    panics before the second request is sent. *)
Lemma Create_no_organization
    (E : Environment) (c : external) (cr : Workspace) (w : World E)
    (r1 : Remote E) (u : user) :
  user_lookup c cr (remote w) r1 u ->
  Organization_ids u = [] ->
  Create c (MWorkspace cr) w =
  (Panics "index out of range [0] with length 0",
   {| remote := r1;
      calls := calls w ++ [HTTP (user_request c cr)];
      stdout := stdout w ++ ["Creating: %!v(MISSING)"; "get User"; "get Templates"] |}).
Proof.
  intros Huser Horgs.
  create_start c cr Huser resp1 e1 Hrt1 Hu.
  rewrite Horgs. rewrite <- !app_assoc. reflexivity.
Qed.

(** C9.  When the user response decodes to a user whose organization_ids
    list is empty, Create indexes that list at 0 all the same: the call
    panics with an index out of range, after the user lookup and before any
    other request, and no error is returned in its place. *)
Theorem Create_index_out_of_range
    (E : Environment) (c : external) (cr : Workspace) (w : World E)
    (r1 : Remote E) (u : user) :
  user_lookup c cr (remote w) r1 u ->
  Organization_ids u = [] ->
  fst (Create c (MWorkspace cr) w) = Panics "index out of range [0] with length 0"
  /\ calls (snd (Create c (MWorkspace cr) w)) = (calls w ++ [HTTP (user_request c cr)])%list
  /\ forall ret, fst (Create c (MWorkspace cr) w) <> Returns ret.
Proof.
  intros Huser Horgs. rewrite (Create_no_organization w Huser Horgs).
  cbn [fst snd calls]. repeat split. intros ret. discriminate.
Qed.

(** The user response of [Fixture.lonely] has an empty organization_ids
    list, and Create panics on it. *)
Lemma Create_index_out_of_range_witness :
  user_lookup Fixture.client Fixture.ws1
    (E := Fixture.stub Fixture.lonely Fixture.cli_failure) tt tt
    {| user_ID := "u1"; user_Name := "janedoe"; Organization_ids := [] |}
  /\ fst (Create Fixture.client (MWorkspace Fixture.ws1)
            (Fixture.start (Fixture.stub Fixture.lonely Fixture.cli_failure) tt))
     = Panics "index out of range [0] with length 0".
Proof.
  assert (H : user_lookup Fixture.client Fixture.ws1
                (E := Fixture.stub Fixture.lonely Fixture.cli_failure) tt tt
                {| user_ID := "u1"; user_Name := "janedoe"; Organization_ids := [] |}).
  { eexists _, _. split; [reflexivity | vm_compute; reflexivity]. }
  split; [exact H |].
  exact (proj1 (Create_index_out_of_range
                  (Fixture.start (Fixture.stub Fixture.lonely Fixture.cli_failure) tt)
                  H eq_refl)).
Defined.

(** The same happens for a user the remote service does not know: the
    stateless stub answers 404 with an error object, which decodes to the
    zero user. *)
Lemma Create_unknown_user_panics :
  Unmarshal_user (js "{'message':'Resource not found'}") = Ok zero_user
  /\ fst (Create Fixture.client (MWorkspace Fixture.ws1)
            (Fixture.start (Fixture.stub Fixture.not_found Fixture.cli_failure) tt))
     = Panics "index out of range [0] with length 0".
Proof. split; vm_compute; reflexivity. Qed.

(** *** Create after both lookups *)

Section Resolved.

Context {E : Environment}.
Variables (c : external) (cr : Workspace) (w : World E).
Variables (r1 r2 : Remote E) (u : user) (org : string) (orgs : list string).
Variable ts : list template.

(** The user lookup decodes to [u], whose first organization is [org], and
    the templates of [org] decode to [ts]. *)
Hypothesis Huser : user_lookup c cr (remote w) r1 u.
Hypothesis Horgs : Organization_ids u = org :: orgs.
Hypothesis Hts : templates_lookup c org r1 r2 ts.

Let name : string := Template (ForProvider (Spec cr)).
Let templateID : string := lookupTemplateID ts name.
Let gets : list Call := [HTTP (user_request c cr); HTTP (templates_request c org)].
Let post : Request :=
  create_request c org (user_ID u) (createBody templateID (GetName cr)).

(** Either the template is not found and nothing is posted, or the creation
    request is posted once and its status decides the result. *)
Lemma Create_resolved :
  Create c (MWorkspace cr) w =
  if String.eqb templateID "" then
    (Returns (zero_ExternalCreation, Some (errors_New "template not found")),
     {| remote := r2; calls := calls w ++ gets; stdout := stdout w ++ create_log |})
  else
    let (r3, reply) := RoundTrip E r2 post in
    (Returns
       (if (StatusCode (fst reply) =? 201)%Z
        then ({| Creation_ConnectionDetails := [] |}, None)
        else (zero_ExternalCreation,
              Some (fmt_Errorf ("could not create workspace: " ++ bad_verb_w (user_Name u))))),
     {| remote := r3; calls := calls w ++ gets ++ [HTTP post];
        stdout := stdout w ++ create_log |}).
Proof.
  destruct Hts as (resp2 & e2 & Hrt2 & Ht). pose proof Huser as Hu0.
  create_start c cr Hu0 resp1 e1 Hrt1 Hu.
  rewrite Horgs. run. rewrite get_wire. fold (templates_request c org).
  cbn [remote calls stdout]. rewrite Hrt2. cbn [fst snd remote calls stdout].
  rewrite Ht. fold name. fold templateID.
  destruct (String.eqb templateID "") eqn:Hid.
  - cbn [remote calls stdout]. subst gets. unfold create_log.
    rewrite <- !app_assoc. reflexivity.
  - run. rewrite post_wire.
    fold (create_request c org (user_ID u) (createBody templateID (GetName cr))).
    fold post. cbn [remote calls stdout].
    destruct (RoundTrip E r2 post) as [r3 [resp3 e3]].
    cbn [fst snd]. subst gets. unfold create_log.
    destruct (StatusCode resp3 =? 201)%Z; cbn [negb];
      rewrite <- !app_assoc; reflexivity.
Qed.



(** C4, as amended.  Create does not ask whether the workspace exists: once
    the user and the template are resolved it posts the creation request,
    and it returns success exactly when the answer to that request has
    status 201; any other status, a conflict with an existing workspace
    included, makes it return an error. *)
Theorem Create_posts_unconditionally :
  templateID <> "" ->
  let status := StatusCode (fst (snd (RoundTrip E r2 post))) in
  let result := Create c (MWorkspace cr) w in
  calls (snd result) = (calls w ++ gets ++ [HTTP post])%list
  /\ (fst result = Returns ({| Creation_ConnectionDetails := [] |}, None) <-> status = 201%Z)
  /\ (status <> 201%Z ->
      fst result
      = Returns (zero_ExternalCreation,
                 Some (fmt_Errorf ("could not create workspace: "
                                   ++ bad_verb_w (user_Name u))))).
Proof.
  intros Hid status result. subst result status. rewrite Create_resolved.
  destruct (String.eqb_spec templateID "") as [| _]; [contradiction |].
  destruct (RoundTrip E r2 post) as [r3 [resp e]]. cbn [fst snd calls].
  destruct (Z.eqb_spec (StatusCode resp) 201) as [H201 | H201];
    repeat split; intros; congruence.
Qed.

(** C10.  When Create gets as far as the creation request, the body it
    posts is the concatenation of the five pieces, the template id and the
    object name copied as they are; a template id or an object name that
    contains a double quote therefore gives a body that does not read back
    as the object with these two fields. *)
Theorem Create_body_not_escaped :
  templateID <> "" ->
  let body := js "{'template_id':'" ++ templateID ++ js "','name':'"
              ++ GetName cr ++ js "'}" in
  calls (snd (Create c (MWorkspace cr) w))
  = (calls w ++ gets ++ [HTTP (create_request c org (user_ID u) body)])%list
  /\ (contains dquote templateID = true \/ contains dquote (GetName cr) = true ->
      ~ JSON.reads body (body_object templateID (GetName cr))
      /\ JSON.parse body <> Some (body_object templateID (GetName cr))).
Proof.
  intros Hid body.
  change body with (createBody templateID (GetName cr)). fold post.
  split.
  - rewrite Create_resolved.
    destruct (String.eqb_spec templateID "") as [| _]; [contradiction |].
    destruct (RoundTrip E r2 post) as [r3 reply]. reflexivity.
  - intros Hq. apply createBody_quote_invalid in Hq.
    split; [exact Hq | intros Hp; apply Hq, parse_reads, Hp].
Qed.

End Resolved.

(** The scenario against the stateless stub [Fixture.two_orgs]. *)
Lemma jane_doe_lookup :
  user_lookup Fixture.client Fixture.ws1
    (E := Fixture.stub Fixture.two_orgs Fixture.cli_failure) tt tt
    {| user_ID := "u1"; user_Name := "janedoe"; Organization_ids := ["org0"; "org1"] |}.
Proof. eexists _, _. split; [reflexivity | vm_compute; reflexivity]. Defined.

Lemma org0_lookup :
  templates_lookup Fixture.client "org0"
    (E := Fixture.stub Fixture.two_orgs Fixture.cli_failure) tt tt
    [{| template_ID := "t0"; template_Name := "base-image" |}].
Proof. eexists _, _. split; [reflexivity | vm_compute; reflexivity]. Defined.






(** C4 fails on the code: in a deployment without ws1 the first Create
    succeeds; Observe then sees the workspace; a second Create posts the
    creation request again, the deployment answers 409, and Create returns
    an error. *)
Lemma Create_retry_fails :
  fst (Create Fixture.client (MWorkspace Fixture.ws1) (Fixture.start Fixture.coder false))
    = Returns ({| Creation_ConnectionDetails := [] |}, None)
  /\ ResourceExists (fst (fst (Observe Fixture.client (MWorkspace Fixture.ws1)
                                 Fixture.created))) = true
  /\ fst (Create Fixture.client (MWorkspace Fixture.ws1) Fixture.created)
     = Returns (zero_ExternalCreation,
                Some (fmt_Errorf "could not create workspace: %!w(string=janedoe)"))
  /\ calls (snd (Create Fixture.client (MWorkspace Fixture.ws1)
                   (Fixture.start Fixture.coder true)))
     = [HTTP (get_request Fixture.client "/api/v2/users/janedoe");
        HTTP (get_request Fixture.client "/api/v2/organizations/org0/templates");
        HTTP (post_request Fixture.client
                "/api/v2/organizations/org0/members/u1/workspaces"
                (createBody "t0" "ws1"))].
Proof. repeat split; vm_compute; reflexivity. Qed.

(** In the deployment where ws1 exists, the POST is answered 409 and Create
    returns the error. *)
Lemma Create_posts_unconditionally_witness :
  StatusCode (fst (snd (RoundTrip Fixture.coder true
                          (create_request Fixture.client "org0" "u1"
                             (createBody "t0" "ws1"))))) <> 201%Z
  /\ fst (Create Fixture.client (MWorkspace Fixture.ws1) (Fixture.start Fixture.coder true))
     = Returns (zero_ExternalCreation,
                Some (fmt_Errorf ("could not create workspace: " ++ bad_verb_w "janedoe"))).
Proof.
  assert (Hu : user_lookup Fixture.client Fixture.ws1 (E := Fixture.coder) true true
                 {| user_ID := "u1"; user_Name := "janedoe";
                    Organization_ids := ["org0"; "org1"] |}).
  { eexists _, _. split; [reflexivity | vm_compute; reflexivity]. }
  assert (Ht : templates_lookup Fixture.client "org0" (E := Fixture.coder) true true
                 [{| template_ID := "t0"; template_Name := "base-image" |}]).
  { eexists _, _. split; [reflexivity | vm_compute; reflexivity]. }
  assert (Hs : StatusCode (fst (snd (RoundTrip Fixture.coder true
                                       (create_request Fixture.client "org0" "u1"
                                          (createBody "t0" "ws1"))))) <> 201%Z).
  { vm_compute. discriminate. }
  split; [exact Hs |].
  refine (proj2 (proj2 (@Create_posts_unconditionally Fixture.coder
                          Fixture.client Fixture.ws1 (Fixture.start Fixture.coder true)
                          true true _ "org0" ["org1"] _ Hu eq_refl Ht _)) Hs).
  vm_compute. discriminate.
Defined.

(** A template id with a double quote in it, as decoded from the response
    of [Fixture.quoted], gives a body that is no JSON text for the intended
    object. *)
Lemma Create_body_not_escaped_witness :
  user_lookup Fixture.client Fixture.ws1
    (E := Fixture.stub Fixture.quoted Fixture.cli_failure) tt tt
    {| user_ID := "u1"; user_Name := "janedoe"; Organization_ids := ["org0"] |}
  /\ templates_lookup Fixture.client "org0"
       (E := Fixture.stub Fixture.quoted Fixture.cli_failure) tt tt
       [{| template_ID := js "t'0"; template_Name := "base-image" |}]
  /\ contains dquote (js "t'0") = true
  /\ JSON.parse (js "{'template_id':'" ++ js "t'0" ++ js "','name':'" ++ "ws1" ++ js "'}")
     <> Some (body_object (js "t'0") "ws1").
Proof.
  assert (Hu : user_lookup Fixture.client Fixture.ws1
                 (E := Fixture.stub Fixture.quoted Fixture.cli_failure) tt tt
                 {| user_ID := "u1"; user_Name := "janedoe";
                    Organization_ids := ["org0"] |}).
  { eexists _, _. split; [reflexivity | vm_compute; reflexivity]. }
  assert (Ht : templates_lookup Fixture.client "org0"
                 (E := Fixture.stub Fixture.quoted Fixture.cli_failure) tt tt
                 [{| template_ID := js "t'0"; template_Name := "base-image" |}]).
  { eexists _, _. split; [reflexivity | vm_compute; reflexivity]. }
  split; [exact Hu |]. split; [exact Ht |]. split; [reflexivity |].
  assert (Hid : lookupTemplateID
                  [{| template_ID := js "t'0"; template_Name := "base-image" |}]
                  (Template (ForProvider (Spec Fixture.ws1))) <> "").
  { vm_compute. discriminate. }
  destruct (@Create_body_not_escaped (Fixture.stub Fixture.quoted Fixture.cli_failure)
              Fixture.client Fixture.ws1
              (Fixture.start (Fixture.stub Fixture.quoted Fixture.cli_failure) tt)
              tt tt _ "org0" [] _ Hu eq_refl Ht Hid) as [_ H].
  destruct (H (or_introl eq_refl)) as [_ Hparse].
  vm_compute in Hparse. vm_compute. exact Hparse.
Defined.

(* ================================================================= *)
(** ** Further properties of the controller *)

(** *** The user name *)

Lemma ReplaceAll_removes (s : string) (old : ascii) :
  contains old (ReplaceAll s old "") = false.
Proof.
  induction s as [| c s IH]; cbn; [reflexivity |].
  destruct (Ascii.eqb c old) eqn:Hc; cbn; [exact IH | now rewrite Hc].
Qed.

Lemma ReplaceAll_absent (s : string) (old : ascii) (new : string) :
  contains old s = false -> ReplaceAll s old new = s.
Proof.
  induction s as [| c s IH]; cbn; [reflexivity |].
  destruct (Ascii.eqb c old); cbn; [discriminate |].
  intros H. now rewrite IH.
Qed.

Lemma ReplaceAll_append (a b : string) (old : ascii) :
  ReplaceAll (a ++ b) old "" = ReplaceAll a old "" ++ ReplaceAll b old "".
Proof.
  induction a as [| c a IH]; cbn; [reflexivity |].
  destruct (Ascii.eqb c old); cbn; now rewrite IH.
Qed.

(** *** Observe and Delete *)

(** X1.  Observe only reads.  Whatever the remote service answers, it
    issues at most one call, and a call it issues is a GET for a Workspace,
    of the workspace under the name of the object, addressed to the
    configured host with the session token; it posts nothing and runs no
    command.  Where it issues no call the remote service is as it was. *)
Theorem Observe_reads_at_most_once
    (E : Environment) (c : external) (mg : Managed) (w : World E) :
  exists new,
    calls (snd (Observe c mg w)) = (calls w ++ new)%list
    /\ length new <= 1
    /\ Forall (fun call =>
                 exists cr req,
                   mg = MWorkspace cr /\ call = HTTP req /\ Method req = "GET"
                   /\ Path req = "/api/v2/users/me/workspace/" ++ GetName cr
                   /\ authenticated c req) new
    /\ (new = [] -> remote (snd (Observe c mg w)) = remote w).
Proof.
  destruct mg as [cr | t].
  - rewrite Observe_Workspace.
    destruct (RoundTrip E (remote w) (observe_request c cr)) as [rem reply].
    exists [HTTP (observe_request c cr)]. cbn [snd calls remote length].
    split; [reflexivity |]. split; [apply Nat.le_refl |]. split; [| discriminate].
    constructor; [| constructor].
    exists cr, (observe_request c cr). repeat split; cbn; auto.
  - exists []. cbn. rewrite app_nil_r. repeat split; auto.
Qed.

(** X2.  Observe looks at nothing but the name of the object: two desired
    states of the same name are observed with the same request and the same
    result, whatever their parameters. *)
Theorem Observe_by_name_only
    (E : Environment) (c : external) (cr cr' : Workspace) (w : World E) :
  GetName cr = GetName cr' ->
  fst (Observe c (MWorkspace cr) w) = fst (Observe c (MWorkspace cr') w)
  /\ calls (snd (Observe c (MWorkspace cr) w)) = calls (snd (Observe c (MWorkspace cr') w))
  /\ remote (snd (Observe c (MWorkspace cr) w)) = remote (snd (Observe c (MWorkspace cr') w)).
Proof.
  intros Hname. rewrite !Observe_Workspace.
  assert (H : observe_request c cr = observe_request c cr')
    by (unfold observe_request; now rewrite Hname).
  rewrite H.
  destruct (RoundTrip E (remote w) (observe_request c cr')) as [rem reply].
  repeat split.
Qed.

Lemma Observe_by_name_only_witness :
  ForProvider (Spec Fixture.ws1) <> ForProvider (Spec Fixture.ws1_other)
  /\ fst (Observe Fixture.client (MWorkspace Fixture.ws1) (Fixture.start Fixture.coder true))
     = fst (Observe Fixture.client (MWorkspace Fixture.ws1_other)
              (Fixture.start Fixture.coder true)).
Proof.
  split; [discriminate |].
  exact (proj1 (@Observe_by_name_only Fixture.coder Fixture.client Fixture.ws1
                  Fixture.ws1_other (Fixture.start Fixture.coder true) eq_refl)).
Defined.

(** X9.  Delete talks to the remote service through the CLI alone: on a
    Workspace it runs one command, [coder delete user/name --yes] with the
    URL and the session token as arguments, and issues no HTTP request; on
    another kind it does nothing. *)
Theorem Delete_footprint (E : Environment) (c : external) (mg : Managed) (w : World E) :
  match mg with
  | MWorkspace cr =>
      calls (snd (Delete c mg w))
      = (calls w
           ++ [Exec {| Cmd_Path := "/usr/local/bin/coder";
                       Cmd_Args := ["delete"; (username_of cr ++ "/" ++ GetName cr)%string;
                                    "--yes"; "--url"; coderurl (service c);
                                    "--token"; token (service c)] |}])%list
      /\ remote (snd (Delete c mg w)) = fst (Run E (remote w) (delete_command c cr))
  | MToken _ => snd (Delete c mg w) = w
  end.
Proof.
  destruct mg as [cr | t]; [| reflexivity].
  rewrite Delete_Workspace.
  destruct (Run E (remote w) (delete_command c cr)) as [rem o].
  split; reflexivity.
Qed.

(** *** Every operation on another kind *)

(** X19.  Handed a managed resource that is not a Workspace, each of the
    five operations returns the error "managed resource is not a Workspace
    custom resource" and leaves the world as it was: no call, no output. *)
Theorem not_a_Workspace
    (E : Environment) (cn : connector) (c : external) (t : Token) (w : World E) :
  let err := errors_New "managed resource is not a Workspace custom resource" in
  Connect cn (MToken t) = Returns (Err err)
  /\ Observe c (MToken t) w = ((zero_ExternalObservation, Some err), w)
  /\ Create c (MToken t) w = (Returns (zero_ExternalCreation, Some err), w)
  /\ Update c (MToken t) w = ((zero_ExternalUpdate, Some err), w)
  /\ Delete c (MToken t) w = (Some err, w).
Proof. repeat split. Qed.

(** *** Connect *)

(** X14.  Connect returns a client exactly when the resource is a Workspace
    with a reference, the tracker accepts it, the ProviderConfig is fetched,
    its credentials are read and the constructor succeeds; the client is the
    one the constructor made of these credentials and that URL. *)
Theorem Connect_succeeds_iff (c : connector) (mg : Managed) (cl : external) :
  Connect c mg = Returns (Ok cl)
  <-> exists cr ref pc data,
        mg = MWorkspace cr
        /\ usage c mg = None
        /\ GetProviderConfigReference cr = Some ref
        /\ kube_Get (kube c) (Reference_Name ref) = Ok pc
        /\ extractor c (Source (Credentials pc)) (kube c) (Selectors (Credentials pc))
           = Ok data
        /\ newServiceFn c data (CoderUrl pc) = Ok (service cl).
Proof.
  split.
  - destruct mg as [cr | t]; [| discriminate]. unfold Connect.
    destruct (usage c (MWorkspace cr)) eqn:Hu; [discriminate |].
    destruct (GetProviderConfigReference cr) as [ref |] eqn:Href; [| discriminate].
    destruct (kube_Get (kube c) (Reference_Name ref)) as [pc | e] eqn:Hpc; [| discriminate].
    destruct (extractor c (Source (Credentials pc)) (kube c) (Selectors (Credentials pc)))
      as [data | e] eqn:Hd; [| discriminate].
    destruct (newServiceFn c data (CoderUrl pc)) as [svc | e] eqn:Hn; [| discriminate].
    intros [= <-]. exists cr, ref, pc, data. repeat split; assumption.
  - intros (cr & ref & pc & data & -> & Hu & Href & Hpc & Hd & Hn).
    unfold Connect. rewrite Hu, Href, Hpc, Hd, Hn. now destruct cl.
Qed.

(** X17.  Connect asks the tracker before it touches the reference.  With
    a tracker that turns away a Workspace without a ProviderConfig
    reference, Connect on a Workspace always returns and never dereferences
    a missing reference; for a Workspace without a reference what it returns
    is the error of the tracker, wrapped as "cannot track ProviderConfig
    usage". *)
Theorem Connect_tracks_before_reference (c : connector) (cr : Workspace) :
  (GetProviderConfigReference cr = None -> usage c (MWorkspace cr) <> None) ->
  exists r,
    Connect c (MWorkspace cr) = Returns r
    /\ (GetProviderConfigReference cr = None ->
        exists err, usage c (MWorkspace cr) = Some err
                    /\ r = Err (errors_Wrap err errTrackPCUsage)).
Proof.
  intros Hcontract. unfold Connect.
  destruct (usage c (MWorkspace cr)) as [err |] eqn:Hu.
  - eexists. split; [reflexivity |]. intros _. now exists err.
  - destruct (GetProviderConfigReference cr) as [ref |] eqn:Href.
    + destruct (kube_Get (kube c) (Reference_Name ref)) as [pc | e1];
        [| eexists; split; [reflexivity | discriminate]].
      destruct (extractor c (Source (Credentials pc)) (kube c) (Selectors (Credentials pc)))
        as [data | e2]; [| eexists; split; [reflexivity | discriminate]].
      destruct (newServiceFn c data (CoderUrl pc)) as [svc | e3];
        eexists; (split; [reflexivity | discriminate]).
    + now contradiction (Hcontract eq_refl).
Qed.

Lemma Connect_tracks_before_reference_witness :
  GetProviderConfigReference Fixture.unreferenced = None
  /\ usage Fixture.installed (MWorkspace Fixture.unreferenced)
     = Some (errors_New "managed resource does not reference a ProviderConfig")
  /\ exists r,
       Connect Fixture.installed (MWorkspace Fixture.unreferenced) = Returns r
       /\ exists err, usage Fixture.installed (MWorkspace Fixture.unreferenced) = Some err
                      /\ r = Err (errors_Wrap err errTrackPCUsage).
Proof.
  split; [reflexivity |]. split; [reflexivity |].
  destruct (@Connect_tracks_before_reference Fixture.installed Fixture.unreferenced)
    as (r & Hr & Herr).
  - intros _. discriminate.
  - exists r. split; [exact Hr | exact (Herr eq_refl)].
Defined.

(** X15.  The connector that Setup installs never fails to construct the
    client: none of its errors is "cannot create new Service". *)
Theorem Connect_installed_constructs
    (k : client_Client) (track : Managed -> option error)
    (extract : string -> client_Client -> CommonCredentialSelectors -> res string)
    (mg : Managed) (e : error) :
  Connect (setup_connector k track extract) mg = Returns (Err e) ->
  ~ ClientConstructionError e.
Proof.
  intros H (cause & ->). revert H. destruct mg as [cr | t]; [| discriminate].
  unfold Connect, setup_connector. cbn [usage kube extractor newServiceFn].
  destruct (track (MWorkspace cr)); [discriminate |].
  destruct (GetProviderConfigReference cr) as [ref |]; [| discriminate].
  destruct (kube_Get k (Reference_Name ref)) as [pc | e1]; [| discriminate].
  destruct (extract (Source (Credentials pc)) k (Selectors (Credentials pc)));
    discriminate.
Qed.

Lemma Connect_installed_constructs_witness :
  Connect Fixture.installed (MToken Fixture.token1)
  = Returns (Err (errors_New errNotWorkspace))
  /\ ~ ClientConstructionError (errors_New errNotWorkspace).
Proof.
  split; [reflexivity |].
  exact (@Connect_installed_constructs Fixture.cluster Fixture.tracker Fixture.read_secret
           (MToken Fixture.token1) (errors_New errNotWorkspace) eq_refl).
Defined.

(** X18.  Every error that Connect returns says which step failed: its
    message begins with one of the five fixed messages, which for a wrapped
    cause is followed by a colon and the message of the cause. *)
Theorem Connect_error_message (c : connector) (mg : Managed) (e : error) :
  Connect c mg = Returns (Err e) ->
  exists msg, In msg connect_messages /\ starts_with msg (Error e)
    /\ (e = errors_New msg \/ exists cause, Error e = msg ++ ": " ++ Error cause).
Proof.
  destruct mg as [cr | t].
  2:{ intros [= <-]. exists errNotWorkspace. split; [now left |].
      split; [exists ""; reflexivity | now left]. }
  unfold Connect.
  destruct (usage c (MWorkspace cr)) as [e0 |].
  { intros [= <-]. exists errTrackPCUsage. split; [cbn; auto |].
    split; [now eexists | right; now exists e0]. }
  destruct (GetProviderConfigReference cr) as [ref |]; [| discriminate].
  destruct (kube_Get (kube c) (Reference_Name ref)) as [pc | e1].
  2:{ intros [= <-]. exists errGetPC. split; [cbn; auto |].
      split; [now eexists | right; now exists e1]. }
  destruct (extractor c (Source (Credentials pc)) (kube c) (Selectors (Credentials pc)))
    as [data | e2].
  2:{ intros [= <-]. exists errGetCreds. split; [cbn; auto |].
      split; [now eexists | right; now exists e2]. }
  destruct (newServiceFn c data (CoderUrl pc)) as [svc | e3]; [discriminate |].
  intros [= <-]. exists errNewClient. split; [cbn; auto 6 |].
  split; [now eexists | right; now exists e3].
Qed.

Lemma Connect_error_message_witness :
  exists msg, In msg connect_messages
    /\ starts_with msg (Error (errors_Wrap (errors_New "providerconfigs not found") errGetPC))
    /\ (errors_Wrap (errors_New "providerconfigs not found") errGetPC = errors_New msg
        \/ exists cause,
             Error (errors_Wrap (errors_New "providerconfigs not found") errGetPC)
             = msg ++ ": " ++ Error cause).
Proof.
  refine (@Connect_error_message
            {| kube := Fixture.cluster; usage := Fixture.tracker;
               newServiceFn := newCoderService; extractor := Fixture.read_secret |}
            (MWorkspace
               {| Workspace_ObjectMeta := {| Name := "ws1" |};
                  Spec := {| Spec_ResourceSpec :=
                               {| ProviderConfigReference :=
                                    Some {| Reference_Name := "missing" |} |};
                             ForProvider := Fixture.params "jane.doe" "base-image" "org1" |};
                  Status := {| AtProvider := {| LatestStat := ""; ObservableField := "" |} |} |})
            _ eq_refl).
Defined.

(** X16.  Connect and Observe compose: whatever Observe sends with the
    client that the installed connector returned, at most one request, is a
    GET of the workspace under the name of the object that is addressed to
    the URL of the ProviderConfig, trailing slashes removed, and carries the
    extracted credentials as the session token. *)
Theorem Connect_then_Observe
    (E : Environment) (k : client_Client) (track : Managed -> option error)
    (extract : string -> client_Client -> CommonCredentialSelectors -> res string)
    (cr : Workspace) (ref : Reference) (pc : ProviderConfig) (data : string) (w : World E) :
  track (MWorkspace cr) = None ->
  GetProviderConfigReference cr = Some ref ->
  kube_Get k (Reference_Name ref) = Ok pc ->
  extract (Source (Credentials pc)) k (Selectors (Credentials pc)) = Ok data ->
  exists cl new,
    Connect (setup_connector k track extract) (MWorkspace cr) = Returns (Ok cl)
    /\ calls (snd (Observe cl (MWorkspace cr) w)) = (calls w ++ new)%list
    /\ length new <= 1
    /\ Forall (fun call =>
                 exists req,
                   call = HTTP req /\ Method req = "GET"
                   /\ HostURL req = TrimRight (CoderUrl pc) "/"%char
                   /\ Path req = "/api/v2/users/me/workspace/" ++ GetName cr
                   /\ In ("Coder-Session-Token", data) (Header req)) new.
Proof.
  intros Ht Href Hpc Hd.
  exists {| service := {| pCLI := resty_New; token := data; coderurl := CoderUrl pc |} |}.
  eexists. split; [| split; [| split]].
  - unfold Connect, setup_connector. cbn [usage kube extractor newServiceFn].
    rewrite Ht, Href, Hpc, Hd. reflexivity.
  - rewrite Observe_Workspace.
    destruct (RoundTrip E (remote w) _) as [rem reply]. reflexivity.
  - apply Nat.le_refl.
  - constructor; [| constructor]. eexists. split; [reflexivity |].
    cbn. repeat split. auto.
Qed.

Lemma Connect_then_Observe_witness :
  Connect Fixture.installed (MWorkspace Fixture.ws1)
  = Returns (Ok {| service := {| pCLI := resty_New; token := "secret";
                                 coderurl := "https://coder.example/" |} |})
  /\ exists cl new,
       Connect Fixture.installed (MWorkspace Fixture.ws1) = Returns (Ok cl)
       /\ calls (snd (Observe cl (MWorkspace Fixture.ws1) (Fixture.start Fixture.coder true)))
          = ([] ++ new)%list
       /\ length new <= 1
       /\ Forall (fun call =>
                    exists req,
                      call = HTTP req /\ Method req = "GET"
                      /\ HostURL req = TrimRight "https://coder.example/" "/"%char
                      /\ Path req = "/api/v2/users/me/workspace/" ++ "ws1"
                      /\ In ("Coder-Session-Token", "secret") (Header req)) new.
Proof.
  split; [reflexivity |].
  exact (@Connect_then_Observe Fixture.coder Fixture.cluster Fixture.tracker
           Fixture.read_secret Fixture.ws1 {| Reference_Name := "default" |}
           Fixture.provider_config "secret" (Fixture.start Fixture.coder true)
           eq_refl eq_refl eq_refl eq_refl).
Defined.

(** *** Create, case by case *)

(** Create when the template list cannot be decoded: nothing is posted. *)
Lemma Create_templates_undecodable
    (E : Environment) (c : external) (cr : Workspace) (w : World E)
    (r1 r2 : Remote E) (u : user) (org : string) (orgs : list string)
    (resp : Response) (err : option error) (e : error) :
  user_lookup c cr (remote w) r1 u ->
  Organization_ids u = org :: orgs ->
  RoundTrip E r1 (templates_request c org) = (r2, (resp, err)) ->
  Unmarshal_templates (ResponseBody resp) = Err e ->
  Create c (MWorkspace cr) w =
  (Returns (zero_ExternalCreation,
            Some (fmt_Errorf_w "failed to decode templates response: " e)),
   {| remote := r2;
      calls := calls w ++ [HTTP (user_request c cr); HTTP (templates_request c org)];
      stdout := stdout w ++ create_log |}).
Proof.
  intros Huser Horgs Hrt2 Ht.
  create_start c cr Huser resp1 e1 Hrt1 Hu.
  rewrite Horgs. run. rewrite get_wire. fold (templates_request c org).
  cbn [remote calls stdout]. rewrite Hrt2. cbn [fst snd remote calls stdout].
  rewrite Ht. unfold create_log. rewrite <- !app_assoc. reflexivity.
Qed.

(** All the ways Create on a Workspace can go, with the result, the calls
    and the state of the remote service in each. *)
Lemma Create_cases (E : Environment) (c : external) (cr : Workspace) (w : World E) :
  let reply1 := RoundTrip E (remote w) (user_request c cr) in
  let result := Create c (MWorkspace cr) w in
  match Unmarshal_user (ResponseBody (fst (snd reply1))) with
  | Err e =>
      fst result = Returns (zero_ExternalCreation,
                            Some (fmt_Errorf_w "failed to decode user response: " e))
      /\ calls (snd result) = (calls w ++ [HTTP (user_request c cr)])%list
      /\ remote (snd result) = fst reply1
  | Ok u =>
      match Organization_ids u with
      | [] =>
          fst result = Panics "index out of range [0] with length 0"
          /\ calls (snd result) = (calls w ++ [HTTP (user_request c cr)])%list
          /\ remote (snd result) = fst reply1
      | org :: _ =>
          let reply2 := RoundTrip E (fst reply1) (templates_request c org) in
          let gets := [HTTP (user_request c cr); HTTP (templates_request c org)] in
          match Unmarshal_templates (ResponseBody (fst (snd reply2))) with
          | Err e =>
              fst result
              = Returns (zero_ExternalCreation,
                         Some (fmt_Errorf_w "failed to decode templates response: " e))
              /\ calls (snd result) = (calls w ++ gets)%list
              /\ remote (snd result) = fst reply2
          | Ok ts =>
              let templateID := lookupTemplateID ts (Template (ForProvider (Spec cr))) in
              if String.eqb templateID "" then
                fst result = Returns (zero_ExternalCreation,
                                      Some (errors_New "template not found"))
                /\ calls (snd result) = (calls w ++ gets)%list
                /\ remote (snd result) = fst reply2
              else
                let post := create_request c org (user_ID u)
                              (createBody templateID (GetName cr)) in
                let reply3 := RoundTrip E (fst reply2) post in
                fst result
                = Returns
                    (if (StatusCode (fst (snd reply3)) =? 201)%Z
                     then ({| Creation_ConnectionDetails := [] |}, None)
                     else (zero_ExternalCreation,
                           Some (fmt_Errorf ("could not create workspace: "
                                             ++ bad_verb_w (user_Name u)))))
                /\ calls (snd result) = (calls w ++ gets ++ [HTTP post])%list
                /\ remote (snd result) = fst reply3
          end
      end
  end.
Proof.
  cbv zeta.
  destruct (RoundTrip E (remote w) (user_request c cr)) as [r1 [resp1 e1]] eqn:H1.
  cbn [fst snd].
  destruct (Unmarshal_user (ResponseBody resp1)) as [u | e] eqn:Hu.
  2:{ rewrite (@Create_user_undecodable E c cr w r1 resp1 e1 e H1 Hu). repeat split. }
  assert (Huser : user_lookup c cr (remote w) r1 u) by (now exists resp1, e1).
  destruct (Organization_ids u) as [| org orgs] eqn:Horgs.
  { rewrite (Create_no_organization w Huser Horgs). repeat split. }
  destruct (RoundTrip E r1 (templates_request c org)) as [r2 [resp2 e2]] eqn:H2.
  cbn [fst snd].
  destruct (Unmarshal_templates (ResponseBody resp2)) as [ts | e] eqn:Ht.
  2:{ rewrite (Create_templates_undecodable w Huser Horgs H2 Ht). repeat split. }
  assert (Hts : templates_lookup c org r1 r2 ts) by (now exists resp2, e2).
  rewrite (Create_resolved w Huser Horgs Hts).
  destruct (String.eqb (lookupTemplateID ts (Template (ForProvider (Spec cr)))) "").
  - repeat split.
  - destruct (RoundTrip E r2 _) as [r3 reply3]. repeat split.
Qed.

Lemma get_request_is_get (c : external) (path : string) : is_get c (HTTP (get_request c path)).
Proof. exists (get_request c path). repeat split; cbn; auto. Qed.

Lemma post_request_is_post (c : external) (path body : string) :
  is_post c (HTTP (post_request c path body)).
Proof. exists (post_request c path body). repeat split; cbn; auto. Qed.

(** Create begins with the lookup of the user. *)
Lemma Create_first_call (E : Environment) (c : external) (cr : Workspace) (w : World E) :
  exists rest,
    calls (snd (Create c (MWorkspace cr) w)) = (calls w ++ HTTP (user_request c cr) :: rest)%list.
Proof.
  pose proof (Create_cases c cr w) as H. cbv zeta in H.
  destruct (Unmarshal_user _) as [u | e].
  2:{ destruct H as (_ & Hc & _). exists []; exact Hc. }
  destruct (Organization_ids u) as [| org orgs].
  { destruct H as (_ & Hc & _). exists []; exact Hc. }
  destruct (Unmarshal_templates _) as [ts | e].
  2:{ destruct H as (_ & Hc & _). eexists; exact Hc. }
  destruct (String.eqb _ "").
  - destruct H as (_ & Hc & _). eexists; exact Hc.
  - destruct H as (_ & Hc & _). eexists; exact Hc.
Qed.

(** Create reads of the desired state the user name without its dots, the
    template name and the name of the object, and nothing else. *)
Lemma Create_reads (E : Environment) (c : external) (cr cr' : Workspace) (w : World E) :
  username_of cr = username_of cr' ->
  Template (ForProvider (Spec cr)) = Template (ForProvider (Spec cr')) ->
  GetName cr = GetName cr' ->
  fst (Create c (MWorkspace cr) w) = fst (Create c (MWorkspace cr') w)
  /\ calls (snd (Create c (MWorkspace cr) w)) = calls (snd (Create c (MWorkspace cr') w))
  /\ remote (snd (Create c (MWorkspace cr) w)) = remote (snd (Create c (MWorkspace cr') w)).
Proof.
  intros Hu Ht Hn.
  pose proof (Create_cases c cr w) as H. pose proof (Create_cases c cr' w) as H'.
  cbv zeta in H, H'. unfold user_request in H, H'.
  rewrite <- Hu, <- Ht, <- Hn in H'.
  destruct (Unmarshal_user _) as [u | e].
  2:{ destruct H as (-> & -> & ->), H' as (-> & -> & ->). repeat split. }
  destruct (Organization_ids u) as [| org orgs].
  { destruct H as (-> & -> & ->), H' as (-> & -> & ->). repeat split. }
  destruct (Unmarshal_templates _) as [ts | e].
  2:{ destruct H as (-> & -> & ->), H' as (-> & -> & ->). repeat split. }
  destruct (String.eqb _ "");
    destruct H as (-> & -> & ->), H' as (-> & -> & ->); repeat split.
Qed.

(** X10.  The user name that Create asks the remote service for and that
    Delete hands to the CLI holds no dot, and it is the desired user name
    itself when that one has no dot: the first request of Create is the GET
    of /api/v2/users/ followed by that name, and the command of Delete
    names the workspace by that name, a slash and the name of the object. *)
Theorem user_name_without_dots
    (E : Environment) (c : external) (cr : Workspace) (w : World E) :
  exists n,
    contains dot n = false
    /\ (contains dot (UserName (ForProvider (Spec cr))) = false ->
        n = UserName (ForProvider (Spec cr)))
    /\ (forall call rest,
          calls (snd (Create c (MWorkspace cr) w)) = (calls w ++ call :: rest)%list ->
          exists req, call = HTTP req /\ Method req = "GET"
                      /\ Path req = "/api/v2/users/" ++ n)
    /\ calls (snd (Delete c (MWorkspace cr) w))
       = (calls w
            ++ [Exec {| Cmd_Path := "/usr/local/bin/coder";
                        Cmd_Args := ["delete"; (n ++ "/" ++ GetName cr)%string;
                                     "--yes"; "--url"; coderurl (service c);
                                     "--token"; token (service c)] |}])%list.
Proof.
  exists (username_of cr). unfold username_of at 1 2.
  split; [apply ReplaceAll_removes |]. split; [apply ReplaceAll_absent |]. split.
  - intros call rest Hcalls.
    destruct (Create_first_call c cr w) as (rest' & Hfirst).
    rewrite Hfirst in Hcalls. apply app_inv_head in Hcalls.
    injection Hcalls as <- _.
    exists (user_request c cr). repeat split.
  - rewrite Delete_Workspace.
    destruct (Run E (remote w) (delete_command c cr)) as [rem o]. reflexivity.
Qed.

(** X11.  Desired states for objects of the same name and template whose
    user names differ by a dot somewhere are not told apart: Create returns
    the same for both, after the same requests and with the same effect on
    the remote service, and so does Delete, after the same command. *)
Theorem user_name_dot_collision
    (E : Environment) (c : external) (cr cr' : Workspace) (w : World E) (a b : string) :
  GetName cr = GetName cr' ->
  Template (ForProvider (Spec cr)) = Template (ForProvider (Spec cr')) ->
  UserName (ForProvider (Spec cr)) = a ++ b ->
  UserName (ForProvider (Spec cr')) = a ++ "." ++ b ->
  (fst (Create c (MWorkspace cr) w) = fst (Create c (MWorkspace cr') w)
   /\ calls (snd (Create c (MWorkspace cr) w)) = calls (snd (Create c (MWorkspace cr') w))
   /\ remote (snd (Create c (MWorkspace cr) w)) = remote (snd (Create c (MWorkspace cr') w)))
  /\ (fst (Delete c (MWorkspace cr) w) = fst (Delete c (MWorkspace cr') w)
      /\ calls (snd (Delete c (MWorkspace cr) w)) = calls (snd (Delete c (MWorkspace cr') w))
      /\ remote (snd (Delete c (MWorkspace cr) w))
         = remote (snd (Delete c (MWorkspace cr') w))).
Proof.
  intros Hname Ht Hu Hu'.
  assert (H : username_of cr = username_of cr').
  { unfold username_of. rewrite Hu, Hu', !ReplaceAll_append. reflexivity. }
  split; [now apply Create_reads |].
  rewrite !Delete_Workspace.
  assert (Hcmd : delete_command c cr = delete_command c cr')
    by (unfold delete_command; now rewrite H, Hname).
  rewrite Hcmd.
  destruct (Run E (remote w) (delete_command c cr')) as [rem o]. repeat split.
Qed.

(** The desired state of ws1 written with jane.doe and with janedoe, in a
    deployment where ws1 does not exist yet: both are created alike, by the
    same three requests. *)
Lemma user_name_dot_collision_witness :
  UserName (ForProvider (Spec Fixture.ws1_dotless)) <> UserName (ForProvider (Spec Fixture.ws1))
  /\ (fst (Create Fixture.client (MWorkspace Fixture.ws1_dotless)
             (Fixture.start Fixture.coder false))
      = fst (Create Fixture.client (MWorkspace Fixture.ws1)
               (Fixture.start Fixture.coder false))
      /\ calls (snd (Create Fixture.client (MWorkspace Fixture.ws1_dotless)
                       (Fixture.start Fixture.coder false)))
         = calls (snd (Create Fixture.client (MWorkspace Fixture.ws1)
                         (Fixture.start Fixture.coder false)))
      /\ remote (snd (Create Fixture.client (MWorkspace Fixture.ws1_dotless)
                        (Fixture.start Fixture.coder false)))
         = remote (snd (Create Fixture.client (MWorkspace Fixture.ws1)
                          (Fixture.start Fixture.coder false))))
  /\ calls (snd (Delete Fixture.client (MWorkspace Fixture.ws1_dotless)
                   (Fixture.start Fixture.coder true)))
     = calls (snd (Delete Fixture.client (MWorkspace Fixture.ws1)
                     (Fixture.start Fixture.coder true))).
Proof.
  split; [discriminate |]. split.
  - exact (proj1 (@user_name_dot_collision Fixture.coder Fixture.client
                    Fixture.ws1_dotless Fixture.ws1 (Fixture.start Fixture.coder false)
                    "jane" "doe" eq_refl eq_refl eq_refl eq_refl)).
  - exact (proj1 (proj2 (proj2 (@user_name_dot_collision Fixture.coder Fixture.client
                    Fixture.ws1_dotless Fixture.ws1 (Fixture.start Fixture.coder true)
                    "jane" "doe" eq_refl eq_refl eq_refl eq_refl)))).
Defined.

(** X3.  Whatever the remote service answers, Create issues at most two
    requests that read, both authenticated GETs, and after them at most one
    request that writes, an authenticated POST; it runs no command. *)
Theorem Create_footprint (E : Environment) (c : external) (mg : Managed) (w : World E) :
  exists gets posts,
    calls (snd (Create c mg w)) = (calls w ++ gets ++ posts)%list
    /\ length gets <= 2
    /\ Forall (is_get c) gets
    /\ (posts = [] \/ exists call, posts = [call] /\ is_post c call).
Proof.
  destruct mg as [cr | t].
  2:{ exists [], []. cbn. rewrite app_nil_r. repeat split; auto. }
  pose proof (Create_cases c cr w) as H. cbv zeta in H.
  pose proof (get_request_is_get c ("/api/v2/users/" ++ username_of cr)) as G1.
  fold (user_request c cr) in G1.
  destruct (Unmarshal_user _) as [u | e].
  2:{ destruct H as (_ & Hc & _). exists [HTTP (user_request c cr)], [].
      rewrite Hc, app_nil_r. repeat split; auto. }
  destruct (Organization_ids u) as [| org orgs].
  { destruct H as (_ & Hc & _). exists [HTTP (user_request c cr)], [].
    rewrite Hc, app_nil_r. repeat split; auto. }
  pose proof (get_request_is_get c ("/api/v2/organizations/" ++ org ++ "/templates")) as G2.
  fold (templates_request c org) in G2.
  destruct (Unmarshal_templates _) as [ts | e].
  2:{ destruct H as (_ & Hc & _).
      exists [HTTP (user_request c cr); HTTP (templates_request c org)], [].
      rewrite Hc, app_nil_r. repeat split; auto. }
  destruct (String.eqb _ "").
  - destruct H as (_ & Hc & _).
    exists [HTTP (user_request c cr); HTTP (templates_request c org)], [].
    rewrite Hc, app_nil_r. repeat split; auto.
  - destruct H as (_ & Hc & _).
    eexists [HTTP (user_request c cr); HTTP (templates_request c org)], [_].
    rewrite Hc. repeat split; auto.
    right. eexists. split; [reflexivity |]. apply post_request_is_post.
Qed.

(** X4.  Create returns success only after a creation request that was
    answered 201: a nil error means that the resource is a Workspace, that
    the last call was an authenticated POST, and that its status was 201. *)
Theorem Create_success_sound
    (E : Environment) (c : external) (mg : Managed) (w : World E) (x : ExternalCreation) :
  fst (Create c mg w) = Returns (x, None) ->
  x = {| Creation_ConnectionDetails := [] |}
  /\ exists cr before req r,
       mg = MWorkspace cr
       /\ calls (snd (Create c mg w)) = (before ++ [HTTP req])%list
       /\ is_post c (HTTP req)
       /\ StatusCode (fst (snd (RoundTrip E r req))) = 201%Z
       /\ remote (snd (Create c mg w)) = fst (RoundTrip E r req).
Proof.
  destruct mg as [cr | t]; [| discriminate].
  pose proof (Create_cases c cr w) as H. cbv zeta in H.
  destruct (Unmarshal_user _) as [u | e].
  2:{ destruct H as (-> & _). discriminate. }
  destruct (Organization_ids u) as [| org orgs].
  { destruct H as (-> & _). discriminate. }
  destruct (Unmarshal_templates _) as [ts | e].
  2:{ destruct H as (-> & _). discriminate. }
  destruct (String.eqb _ "").
  { destruct H as (-> & _). discriminate. }
  destruct H as (-> & Hc & Hr).
  destruct (Z.eqb_spec
              (StatusCode
                 (fst (snd (RoundTrip E
                              (fst (RoundTrip E (fst (RoundTrip E (remote w) (user_request c cr)))
                                      (templates_request c org)))
                              (create_request c org (user_ID u)
                                 (createBody
                                    (lookupTemplateID ts (Template (ForProvider (Spec cr))))
                                    (GetName cr))))))) 201) as [H201 | H201];
    [| discriminate].
  intros [= <-]. split; [reflexivity |].
  eexists cr, _, _, _. split; [reflexivity |].
  split; [rewrite Hc, app_assoc; reflexivity |].
  split; [apply post_request_is_post |]. split; [exact H201 | exact Hr].
Qed.

Lemma Create_success_sound_witness :
  fst (Create Fixture.client (MWorkspace Fixture.ws1) (Fixture.start Fixture.coder false))
  = Returns ({| Creation_ConnectionDetails := [] |}, None)
  /\ exists cr before req r,
       MWorkspace Fixture.ws1 = MWorkspace cr
       /\ calls (snd (Create Fixture.client (MWorkspace Fixture.ws1)
                        (Fixture.start Fixture.coder false)))
          = (before ++ [HTTP req])%list
       /\ is_post Fixture.client (HTTP req)
       /\ StatusCode (fst (snd (RoundTrip Fixture.coder r req))) = 201%Z
       /\ remote (snd (Create Fixture.client (MWorkspace Fixture.ws1)
                         (Fixture.start Fixture.coder false)))
          = fst (RoundTrip Fixture.coder r req).
Proof.
  assert (H : fst (Create Fixture.client (MWorkspace Fixture.ws1)
                     (Fixture.start Fixture.coder false))
              = Returns ({| Creation_ConnectionDetails := [] |}, None))
    by (vm_compute; reflexivity).
  split; [exact H |].
  exact (proj2 (@Create_success_sound Fixture.coder Fixture.client (MWorkspace Fixture.ws1)
                  (Fixture.start Fixture.coder false) _ H)).
Defined.

(** X5.  When the answer to the user lookup does not decode, whatever its
    status, Create returns "failed to decode user response" around the
    error of the decoder, and has issued that one request only. *)
Theorem Create_user_decode_failure
    (E : Environment) (c : external) (cr : Workspace) (w : World E) (e : error) :
  Unmarshal_user
    (ResponseBody (fst (snd (RoundTrip E (remote w) (user_request c cr))))) = Err e ->
  fst (Create c (MWorkspace cr) w)
  = Returns (zero_ExternalCreation, Some (fmt_Errorf_w "failed to decode user response: " e))
  /\ Error (fmt_Errorf_w "failed to decode user response: " e)
     = "failed to decode user response: " ++ Error e
  /\ calls (snd (Create c (MWorkspace cr) w)) = (calls w ++ [HTTP (user_request c cr)])%list.
Proof.
  intros He. pose proof (Create_cases c cr w) as H. cbv zeta in H.
  rewrite He in H. destruct H as (Hf & Hc & _). repeat split; assumption.
Qed.

(** Without a connection the body is empty, which is no JSON text: Create
    reports a decoding failure. *)
Lemma Create_user_decode_failure_witness :
  Unmarshal_user "" = Err json_SyntaxError
  /\ fst (Create Fixture.client (MWorkspace Fixture.ws1) (Fixture.start Fixture.offline tt))
     = Returns (zero_ExternalCreation,
                Some (fmt_Errorf_w "failed to decode user response: " json_SyntaxError)).
Proof.
  split; [reflexivity |].
  exact (proj1 (@Create_user_decode_failure Fixture.offline Fixture.client Fixture.ws1
                  (Fixture.start Fixture.offline tt) json_SyntaxError eq_refl)).
Defined.

(** X6.  When the user is resolved and the answer to the templates request
    does not decode, Create returns "failed to decode templates response"
    around the error of the decoder after the two GETs, and posts
    nothing. *)
Theorem Create_templates_decode_failure
    (E : Environment) (c : external) (cr : Workspace) (w : World E)
    (r1 : Remote E) (u : user) (org : string) (orgs : list string) (e : error) :
  user_lookup c cr (remote w) r1 u ->
  Organization_ids u = org :: orgs ->
  Unmarshal_templates
    (ResponseBody (fst (snd (RoundTrip E r1 (templates_request c org))))) = Err e ->
  fst (Create c (MWorkspace cr) w)
  = Returns (zero_ExternalCreation,
             Some (fmt_Errorf_w "failed to decode templates response: " e))
  /\ calls (snd (Create c (MWorkspace cr) w))
     = (calls w ++ [HTTP (user_request c cr); HTTP (templates_request c org)])%list.
Proof.
  intros Huser Horgs He.
  destruct (RoundTrip E r1 (templates_request c org)) as [r2 [resp2 e2]] eqn:H2.
  cbn [fst snd] in He.
  rewrite (Create_templates_undecodable w Huser Horgs H2 He). split; reflexivity.
Qed.

Lemma Create_templates_decode_failure_witness :
  Unmarshal_templates (js "{'message':'Forbidden'}") = Err json_UnmarshalTypeError
  /\ fst (Create Fixture.client (MWorkspace Fixture.ws1)
            (Fixture.start (Fixture.stub Fixture.forbidden Fixture.cli_failure) tt))
     = Returns (zero_ExternalCreation,
                Some (fmt_Errorf_w "failed to decode templates response: "
                        json_UnmarshalTypeError)).
Proof.
  split; [vm_compute; reflexivity |].
  refine (proj1 (@Create_templates_decode_failure
                   (Fixture.stub Fixture.forbidden Fixture.cli_failure)
                   Fixture.client Fixture.ws1
                   (Fixture.start (Fixture.stub Fixture.forbidden Fixture.cli_failure) tt)
                   tt {| user_ID := "u1"; user_Name := "janedoe";
                         Organization_ids := ["org0"; "org1"] |}
                   "org0" ["org1"] json_UnmarshalTypeError _ eq_refl _)).
  - eexists _, _. split; [reflexivity | vm_compute; reflexivity].
  - vm_compute. reflexivity.
Defined.

(** X7.  A template without an id counts as no template: when the first
    template of the wanted name has the empty id, Create returns "template
    not found" and posts nothing, even if a later template of that name has
    an id. *)
Theorem Create_blank_template_id
    (E : Environment) (c : external) (cr : Workspace) (w : World E)
    (r1 r2 : Remote E) (u : user) (org : string) (orgs : list string)
    (before after : list template) (t : template) :
  user_lookup c cr (remote w) r1 u ->
  Organization_ids u = org :: orgs ->
  templates_lookup c org r1 r2 (before ++ t :: after) ->
  Forall (fun t' => template_Name t' <> Template (ForProvider (Spec cr))) before ->
  template_Name t = Template (ForProvider (Spec cr)) ->
  template_ID t = "" ->
  fst (Create c (MWorkspace cr) w)
  = Returns (zero_ExternalCreation, Some (errors_New "template not found"))
  /\ calls (snd (Create c (MWorkspace cr) w))
     = (calls w ++ [HTTP (user_request c cr); HTTP (templates_request c org)])%list.
Proof.
  intros Huser Horgs Hts Hbefore Hname Hid.
  rewrite (Create_resolved w Huser Horgs Hts).
  assert (H : lookupTemplateID (before ++ t :: after) (Template (ForProvider (Spec cr))) = "").
  { clear - Hbefore Hname Hid. induction Hbefore as [| t' before Hne _ IH].
    - cbn. rewrite Hname, String.eqb_refl. exact Hid.
    - cbn. destruct (String.eqb_spec (template_Name t') (Template (ForProvider (Spec cr))));
        [contradiction | exact IH]. }
  rewrite H. split; reflexivity.
Qed.

Lemma Create_blank_template_id_witness :
  templates_lookup Fixture.client "org0"
    (E := Fixture.stub Fixture.blank_id Fixture.cli_failure) tt tt
    ([] ++ {| template_ID := ""; template_Name := "base-image" |}
        :: [{| template_ID := "t9"; template_Name := "base-image" |}])%list
  /\ fst (Create Fixture.client (MWorkspace Fixture.ws1)
            (Fixture.start (Fixture.stub Fixture.blank_id Fixture.cli_failure) tt))
     = Returns (zero_ExternalCreation, Some (errors_New "template not found")).
Proof.
  assert (Ht : templates_lookup Fixture.client "org0"
                 (E := Fixture.stub Fixture.blank_id Fixture.cli_failure) tt tt
                 ([] ++ {| template_ID := ""; template_Name := "base-image" |}
                     :: [{| template_ID := "t9"; template_Name := "base-image" |}])%list).
  { eexists _, _. split; [reflexivity | vm_compute; reflexivity]. }
  split; [exact Ht |].
  refine (proj1 (@Create_blank_template_id
                   (Fixture.stub Fixture.blank_id Fixture.cli_failure)
                   Fixture.client Fixture.ws1
                   (Fixture.start (Fixture.stub Fixture.blank_id Fixture.cli_failure) tt)
                   tt tt {| user_ID := "u1"; user_Name := "janedoe";
                            Organization_ids := ["org0"; "org1"] |}
                   "org0" ["org1"] [] _ _ _ eq_refl Ht (Forall_nil _) eq_refl eq_refl)).
  eexists _, _. split; [reflexivity | vm_compute; reflexivity].
Defined.

(** *** The body of the creation request, once more *)

(** X12.  The body Create writes is a JSON text for the object with the
    template id and the name exactly when neither of the two holds a double
    quote, a backslash or a control character. *)
Theorem createBody_valid_iff (templateID objectName : string) :
  JSON.parse (createBody templateID objectName) = Some (body_object templateID objectName)
  <-> specials templateID = 0 /\ specials objectName = 0.
Proof.
  split.
  - intros H. now apply createBody_valid_plain, parse_reads.
  - intros [Ht Hn]. now apply createBody_plain_valid.
Qed.

(** X13.  On texts without such characters the body determines the template
    id and the name. *)
Theorem createBody_injective (t n t' n' : string) :
  specials t = 0 -> specials n = 0 -> specials t' = 0 -> specials n' = 0 ->
  createBody t n = createBody t' n' -> t = t' /\ n = n'.
Proof.
  intros Ht Hn Ht' Hn' Heq.
  pose proof (createBody_plain_valid t n Ht Hn) as H.
  pose proof (createBody_plain_valid t' n' Ht' Hn') as H'.
  rewrite Heq, H' in H. unfold body_object in H.
  injection H as -> ->. now split.
Qed.

Lemma createBody_injective_witness :
  specials "t0" = 0 /\ specials "ws1" = 0
  /\ createBody "t0" "ws1" = createBody "t0" "ws1"
  /\ "t0" = "t0" /\ "ws1" = "ws1".
Proof.
  split; [reflexivity |]. split; [reflexivity |]. split; [reflexivity |].
  exact (@createBody_injective "t0" "ws1" "t0" "ws1" eq_refl eq_refl eq_refl eq_refl
           eq_refl).
Defined.

Lemma append_assoc (a b c : string) : (a ++ b) ++ c = a ++ b ++ c.
Proof. induction a as [| x a IH]; cbn; [reflexivity | now rewrite IH]. Qed.

(** X8.  With quotes allowed the body does not tell where the template id
    ends: moving a piece of text, together with the separator that Create
    writes between the two fields, from the end of the template id to the
    front of the name gives the same body for a different pair. *)
Theorem createBody_ambiguous (t x n : string) :
  createBody (t ++ body_middle ++ x) n = createBody t (x ++ body_middle ++ n)
  /\ t ++ body_middle ++ x <> t.
Proof.
  split.
  - unfold createBody. now rewrite !append_assoc.
  - intros H. apply (f_equal String.length) in H.
    rewrite !length_append in H. change (String.length body_middle) with 10 in H. lia.
Qed.
